(** * SQL Scenario: scoring, progression and leaderboard logic

    A shallow embedding of the game logic of the front end:

    - [calculateChallengeScore], [calculateXpEarned], [calculateOverallProgress],
      [getPerformanceRating], [getDifficultyColor], [getPlayerTitle] (game
      utilities),
    - [submitSolution], [getLevelById], [executeQuery] (mock game service),
    - [updatePlayerProgress], [markLevelCompleted] (the [useGameState] hook),
    - [handleSubmitSolution], [handleHintRequest] (challenge page),
    - [loadLeaderboardData], [getCurrentPageData] and the pagination bar
      (leaderboard page),
    - the URL of [fetchWithAuth] (API utilities).

    JavaScript has one numeric type.  The functions are written once, over
    a class [JSNumber] of numbers, and read at two instances:

    - [xnum], exact arithmetic: rationals extended with the two infinities
      and NaN.  The special values follow IEEE 754; finite arithmetic is
      exact (no rounding, no overflow, no negative zero).  Statements
      quantified over all inputs are proved at this instance.
    - [float], binary64 as the engine computes it (the kernel's primitive
      floats).  Concrete inputs are evaluated at this instance, and so are
      finite ranges of inputs, entry by entry: where a rounded quotient
      decides a tie, the two instances differ, and the statement is made at
      this one. *)

From Stdlib Require Import ZArith QArith Qround Bool List String Ascii.
From Stdlib Require Import Lia Lqa Permutation Sorted.
From Stdlib Require Import PrimFloat FloatOps SpecFloat Uint63.
Import ListNotations.

Set Warnings "-inexact-float".

Set Implicit Arguments.

(* ================================================================= *)
(** ** Numbers *)

(** The operations of a JavaScript number that the sources use. *)
Class JSNumber (number : Type) : Type := {
  js_lit : Z -> number;                       (* an integer literal *)
  js_NaN : number;
  js_add : number -> number -> number;
  js_sub : number -> number -> number;
  js_mul : number -> number -> number;
  js_div : number -> number -> number;
  js_lt : number -> number -> bool;           (* a < b *)
  js_le : number -> number -> bool;           (* a <= b *)
  js_eq : number -> number -> bool;           (* a === b *)
  Math_round : number -> number;
  Math_floor : number -> number;
  Math_ceil : number -> number;
  Math_max : number -> number -> number;
  Math_min : number -> number -> number
}.

Declare Scope js_scope.
Delimit Scope js_scope with js.
Notation "x + y" := (js_add x y) : js_scope.
Notation "x - y" := (js_sub x y) : js_scope.
Notation "x * y" := (js_mul x y) : js_scope.
Notation "x / y" := (js_div x y) : js_scope.
Notation "x <? y" := (js_lt x y) (at level 70, no associativity) : js_scope.
Notation "x <=? y" := (js_le x y) (at level 70, no associativity) : js_scope.
Notation "x >? y" := (js_lt y x) (at level 70, no associativity) : js_scope.
Notation "x >=? y" := (js_le y x) (at level 70, no associativity) : js_scope.
Notation "x === y" := (js_eq x y) (at level 70, no associativity) : js_scope.

(** The comparisons as propositions. *)
Notation "x =j= y" := (js_eq x y = true) (at level 70, no associativity).
Notation "x <j= y" := (js_le x y = true) (at level 70, no associativity).
Notation "x <j y" := (js_lt x y = true) (at level 70, no associativity).

(** Truthiness of a number: every number but 0 and NaN. *)
Definition truthy {number} `{JSNumber number} (n : number) : bool :=
  js_eq n n && negb (js_eq n (js_lit 0)).

(* ----------------------------------------------------------------- *)
(** *** Exact numbers *)

Inductive xnum : Type :=
  | Fin (q : Q)
  | PInf
  | NInf
  | XNaN.

Definition Qltb (x y : Q) : bool :=
  match x ?= y with Lt => true | _ => false end.

Definition xadd (a b : xnum) : xnum :=
  match a, b with
  | Fin x, Fin y => Fin (x + y)
  | XNaN, _ | _, XNaN => XNaN
  | PInf, NInf | NInf, PInf => XNaN
  | PInf, _ | _, PInf => PInf
  | NInf, _ | _, NInf => NInf
  end.

Definition xsub (a b : xnum) : xnum :=
  match a, b with
  | Fin x, Fin y => Fin (x - y)
  | XNaN, _ | _, XNaN => XNaN
  | PInf, PInf | NInf, NInf => XNaN
  | PInf, _ | _, NInf => PInf
  | NInf, _ | _, PInf => NInf
  end.

(** Sign of a number that is not NaN. *)
Definition xsign (a : xnum) : comparison :=
  match a with
  | Fin x => x ?= 0
  | PInf => Gt
  | NInf => Lt
  | XNaN => Eq
  end.

Definition xmul (a b : xnum) : xnum :=
  match a, b with
  | Fin x, Fin y => Fin (x * y)
  | XNaN, _ | _, XNaN => XNaN
  | _, _ =>
      match xsign a, xsign b with
      | Eq, _ | _, Eq => XNaN
      | Gt, Gt | Lt, Lt => PInf
      | _, _ => NInf
      end
  end.

Definition xdiv (a b : xnum) : xnum :=
  match a, b with
  | Fin x, Fin y =>
      if Qeq_bool y 0
      then match x ?= 0 with Eq => XNaN | Gt => PInf | Lt => NInf end
      else Fin (x / y)
  | XNaN, _ | _, XNaN => XNaN
  | Fin _, _ => Fin 0
  | PInf, Fin y => if Qltb y 0 then NInf else PInf
  | NInf, Fin y => if Qltb y 0 then PInf else NInf
  | _, _ => XNaN
  end.

Definition xlt (a b : xnum) : bool :=
  match a, b with
  | Fin x, Fin y => Qltb x y
  | XNaN, _ | _, XNaN => false
  | _, NInf | PInf, _ => false
  | NInf, _ | _, PInf => true
  end.

Definition xle (a b : xnum) : bool :=
  match a, b with
  | Fin x, Fin y => Qle_bool x y
  | XNaN, _ | _, XNaN => false
  | NInf, _ | _, PInf => true
  | _, NInf | PInf, _ => false
  end.

Definition xeq (a b : xnum) : bool :=
  match a, b with
  | Fin x, Fin y => Qeq_bool x y
  | PInf, PInf | NInf, NInf => true
  | _, _ => false
  end.

Definition xround (a : xnum) : xnum :=
  match a with
  | Fin x => Fin (inject_Z (Qfloor (x + (1 # 2))))
  | _ => a
  end.

Definition xfloor (a : xnum) : xnum :=
  match a with
  | Fin x => Fin (inject_Z (Qfloor x))
  | _ => a
  end.

Definition xceil (a : xnum) : xnum :=
  match a with
  | Fin x => Fin (inject_Z (Qceiling x))
  | _ => a
  end.

Definition xisnan (a : xnum) : bool :=
  match a with XNaN => true | _ => false end.

Definition xmax (a b : xnum) : xnum :=
  if xisnan a || xisnan b then XNaN else if xlt a b then b else a.

Definition xmin (a b : xnum) : xnum :=
  if xisnan a || xisnan b then XNaN else if xlt b a then b else a.

#[export] Instance xnum_number : JSNumber xnum := {
  js_lit z := Fin (inject_Z z);
  js_NaN := XNaN;
  js_add := xadd;
  js_sub := xsub;
  js_mul := xmul;
  js_div := xdiv;
  js_lt := xlt;
  js_le := xle;
  js_eq := xeq;
  Math_round := xround;
  Math_floor := xfloor;
  Math_ceil := xceil;
  Math_max := xmax;
  Math_min := xmin
}.

(* ----------------------------------------------------------------- *)
(** *** binary64 *)

Definition float_of_Z (n : Z) : float :=
  if (n <? 0)%Z
  then PrimFloat.opp (PrimFloat.of_uint63 (Uint63.of_Z (- n)))
  else PrimFloat.of_uint63 (Uint63.of_Z n).

(** The integer [n] as a float, with the sign of zero taken from [s]. *)
Definition float_of_rounded (s : bool) (n : Z) : float :=
  if (n =? 0)%Z
  then (if s then PrimFloat.neg_zero else PrimFloat.zero)
  else float_of_Z n.

(** A finite float with a negative exponent is [v / d] for integers [v]
    and [d = 2^-e]; the three roundings are integer divisions.  A float with
    a non-negative exponent is integral already. *)
Definition float_to_integral (f : Z -> Z -> Z) (x : float) : float :=
  match Prim2SF x with
  | S754_finite s m e =>
      if (0 <=? e)%Z then x
      else float_of_rounded s (f (if s then Z.neg m else Z.pos m) (2 ^ (- e))%Z)
  | _ => x
  end.

(** [Math.round]: the nearest integer, a tie going up. *)
Definition float_round : float -> float :=
  float_to_integral (fun v d => ((2 * v + d) / (2 * d))%Z).

Definition float_floor : float -> float :=
  float_to_integral (fun v d => (v / d)%Z).

Definition float_ceil : float -> float :=
  float_to_integral (fun v d => (- ((- v) / d))%Z).

Definition float_max (a b : float) : float :=
  if PrimFloat.is_nan a || PrimFloat.is_nan b then PrimFloat.nan
  else if PrimFloat.ltb a b then b
  else if PrimFloat.ltb b a then a
  else if PrimFloat.get_sign a then b else a.

Definition float_min (a b : float) : float :=
  if PrimFloat.is_nan a || PrimFloat.is_nan b then PrimFloat.nan
  else if PrimFloat.ltb b a then b
  else if PrimFloat.ltb a b then a
  else if PrimFloat.get_sign a then a else b.

#[export] Instance float_number : JSNumber float := {
  js_lit := float_of_Z;
  js_NaN := PrimFloat.nan;
  js_add := PrimFloat.add;
  js_sub := PrimFloat.sub;
  js_mul := PrimFloat.mul;
  js_div := PrimFloat.div;
  js_lt := PrimFloat.ltb;
  js_le := PrimFloat.leb;
  js_eq := PrimFloat.eqb;
  Math_round := float_round;
  Math_floor := float_floor;
  Math_ceil := float_ceil;
  Math_max := float_max;
  Math_min := float_min
}.

(* ================================================================= *)
(** ** Game utilities *)

Section GameUtils.

Context {number : Type} `{JSNumber number}.
Local Open Scope js_scope.

(** [calculateChallengeScore(executionTime, optimalTime, usedIndex,
    indexRequired, hintsUsed)]. *)
Definition calculateChallengeScore
    (executionTime optimalTime : number) (usedIndex indexRequired : bool)
    (hintsUsed : number) : number :=
  let score := js_lit 100 in
  let timeRatio := executionTime / optimalTime in
  let score :=
    if timeRatio >? js_lit 1
    then score - Math_min (js_lit 30) (Math_round ((timeRatio - js_lit 1) * js_lit 20))
    else score in
  let score :=
    if indexRequired && negb usedIndex then score - js_lit 20 else score in
  let score := score - hintsUsed * js_lit 10 in
  Math_max (js_lit 0) score.

Definition clamp (lo hi x : number) : number := Math_max lo (Math_min hi x).

(** The overall score in the words of the specification: from 100, a time
    penalty when the ratio exceeds 1, 20 for a required index that was not
    used, 10 for each hint, the result clamped to [0, 100]. *)
Definition spec_overall
    (executionTime optimalTime : number) (usedIndex mustUseIndex : bool)
    (hintsUsed : number) : number :=
  let ratio := executionTime / optimalTime in
  let timePenalty :=
    if ratio >? js_lit 1
    then Math_min (js_lit 30) (Math_round ((ratio - js_lit 1) * js_lit 20))
    else js_lit 0 in
  let indexPenalty :=
    if mustUseIndex && negb usedIndex then js_lit 20 else js_lit 0 in
  let hintPenalty := js_lit 10 * hintsUsed in
  clamp (js_lit 0) (js_lit 100)
    (js_lit 100 - timePenalty - indexPenalty - hintPenalty).

(** Property lookup [o[key]] on an object literal whose own properties
    are numbers.  A key that is not an own property is looked up on
    [Object.prototype], whose members are functions and objects. *)
Inductive value : Type :=
  | VNumber (n : number)
  | VObject
  | VUndefined.

Definition Object_prototype : list string :=
  [ "constructor"; "__defineGetter__"; "__defineSetter__"; "hasOwnProperty";
    "__lookupGetter__"; "__lookupSetter__"; "isPrototypeOf";
    "propertyIsEnumerable"; "toString"; "valueOf"; "__proto__";
    "toLocaleString" ]%string.

Fixpoint own_property (o : list (string * number)) (key : string) : option number :=
  match o with
  | [] => None
  | (k, v) :: o' => if String.eqb k key then Some v else own_property o' key
  end.

Definition js_get (o : list (string * number)) (key : string) : value :=
  match own_property o key with
  | Some v => VNumber v
  | None =>
      if existsb (String.eqb key) Object_prototype then VObject else VUndefined
  end.

(** Truthiness of a value, and [v || d]. *)
Definition value_truthy (v : value) : bool :=
  match v with
  | VNumber n => truthy n
  | VObject => true
  | VUndefined => false
  end.

Definition value_or (v d : value) : value := if value_truthy v then v else d.

(** The number an operand of [*] is converted to: a function or a plain
    object gives NaN. *)
Definition ToNumber (v : value) : number :=
  match v with
  | VNumber n => n
  | VObject | VUndefined => js_NaN
  end.

Definition baseXp : list (string * number) :=
  [ ("beginner", js_lit 50); ("intermediate", js_lit 100);
    ("advanced", js_lit 200); ("expert", js_lit 400) ]%string.

(** [calculateXpEarned(difficulty, score)] *)
Definition calculateXpEarned (difficulty : string) (score : number) : number :=
  let base := value_or (js_get baseXp difficulty) (js_get baseXp "beginner") in
  Math_round ((ToNumber base * (score / js_lit 100)) / js_lit 5) * js_lit 5.

End GameUtils.

(* ================================================================= *)
(** ** Strings *)

(** A string is the sequence of the bytes of its UTF-8 encoding, as the
    string literals of the sources and of this file are.  On well-formed
    strings, equality, [includes] and [startsWith] are the same on these
    bytes as on the code units of the engine. *)

(** [toLowerCase]: the letters A to Z are replaced by their small letters
    and every other byte is kept.  This is [String.prototype.toLowerCase]
    on the strings whose characters outside ASCII have no lower-case mapping
    of their own, as all the names and literals of the sources.  A string
    with other capital letters (accented or Greek ones, the Kelvin sign) is
    lowered by the engine and kept by this function. *)
Definition ascii_toLowerCase (c : ascii) : ascii :=
  let n := nat_of_ascii c in
  if (65 <=? n)%nat && (n <=? 90)%nat then ascii_of_nat (n + 32) else c.

Fixpoint toLowerCase (s : string) : string :=
  match s with
  | EmptyString => EmptyString
  | String c s' => String (ascii_toLowerCase c) (toLowerCase s')
  end.

(** [s.includes(sub)] *)
Fixpoint includes (s sub : string) : bool :=
  String.prefix sub s ||
  match s with
  | EmptyString => false
  | String _ s' => includes s' sub
  end.

(** The white space and line terminators that [trim] strips, by the
    length of their UTF-8 encoding.  One byte: tab, line feed, vertical tab,
    form feed, carriage return, space. *)
Definition is_space (c : ascii) : bool :=
  let n := nat_of_ascii c in
  (n =? 32)%nat || ((9 <=? n)%nat && (n <=? 13)%nat).

(** Two bytes: the no-break space U+00A0. *)
Definition is_space2 (c1 c2 : ascii) : bool :=
  (nat_of_ascii c1 =? 194)%nat && (nat_of_ascii c2 =? 160)%nat.

(** Three bytes: U+1680, U+2000 to U+200A, the line and paragraph
    separators U+2028 and U+2029, U+202F, U+205F, U+3000 and the byte order
    mark U+FEFF. *)
Definition is_space3 (c1 c2 c3 : ascii) : bool :=
  let n1 := nat_of_ascii c1 in
  let n2 := nat_of_ascii c2 in
  let n3 := nat_of_ascii c3 in
  ((n1 =? 225) && (n2 =? 154) && (n3 =? 128))%nat
  || ((n1 =? 226) && (n2 =? 128)
      && (((128 <=? n3) && (n3 <=? 138)) || (n3 =? 168) || (n3 =? 169)
          || (n3 =? 175)))%nat
  || ((n1 =? 226) && (n2 =? 129) && (n3 =? 159))%nat
  || ((n1 =? 227) && (n2 =? 128) && (n3 =? 128))%nat
  || ((n1 =? 239) && (n2 =? 187) && (n3 =? 191))%nat.

(** The rest of a string after the white-space character it starts with,
    if it starts with one. *)
Definition after_space (s : string) : option string :=
  match s with
  | EmptyString => None
  | String c1 s1 =>
      if is_space c1 then Some s1
      else
        match s1 with
        | EmptyString => None
        | String c2 s2 =>
            if is_space2 c1 c2 then Some s2
            else
              match s2 with
              | EmptyString => None
              | String c3 s3 => if is_space3 c1 c2 c3 then Some s3 else None
              end
        end
  end.

Fixpoint trimStart (s : string) : string :=
  match s with
  | EmptyString => EmptyString
  | String c1 s1 =>
      if is_space c1 then trimStart s1
      else
        match s1 with
        | EmptyString => s
        | String c2 s2 =>
            if is_space2 c1 c2 then trimStart s2
            else
              match s2 with
              | EmptyString => s
              | String c3 s3 => if is_space3 c1 c2 c3 then trimStart s3 else s
              end
        end
  end.

(** A string of white space only (the empty string included). *)
Fixpoint all_spaces (s : string) : bool :=
  match s with
  | EmptyString => true
  | String c1 s1 =>
      if is_space c1 then all_spaces s1
      else
        match s1 with
        | EmptyString => false
        | String c2 s2 =>
            if is_space2 c1 c2 then all_spaces s2
            else
              match s2 with
              | EmptyString => false
              | String c3 s3 =>
                  if is_space3 c1 c2 c3 then all_spaces s3 else false
              end
        end
  end.

(** The string without the white space it ends with: the bytes before the
    first place from which only white space follows. *)
Fixpoint trimEnd (s : string) : string :=
  match s with
  | EmptyString => EmptyString
  | String c s' => if all_spaces s then EmptyString else String c (trimEnd s')
  end.

Definition trim (s : string) : string := trimEnd (trimStart s).

(** A string is truthy when it is not empty. *)
Definition nonempty (s : string) : bool :=
  match s with EmptyString => false | _ => true end.

(* ================================================================= *)
(** ** Game service (mock) *)

Section GameService.

Context {number : Type} `{JSNumber number}.
Local Open Scope js_scope.

Record SubmissionResult : Type := {
  score : number;
  feedback : string;
  xpEarned : number
}.

(** [submitSolution(levelId, query)].  [random] is the value that
    [Math.random()] returns in the call. *)
Definition submitSolution (random : number) (levelId : number) (query : string)
    : SubmissionResult :=
  let score := Math_floor (random * js_lit 40) + js_lit 60 in
  let xpEarned := Math_floor (score / js_lit 2) in
  {| score := score;
     feedback :=
       if score >? js_lit 80
       then "Great job! Your query is efficient and meets all requirements."
       else "Good attempt! Consider using indexes to improve performance.";
     xpEarned := xpEarned |}.

End GameService.

(* ================================================================= *)
(** ** Game state (the [useGameState] hook) *)

Section GameState.

Context {number : Type} `{JSNumber number}.
Local Open Scope js_scope.

(** The challenge attached to a level is carried around unchanged. *)
Variable Challenge : Type.

Record Badge : Type := {
  badge_id : string;
  badge_name : string;
  badge_description : string;
  iconUrl : string;
  earnedDate : option string
}.

Record Skills : Type := {
  queryMastery : number;
  indexing : number;
  optimization : number;
  security : number
}.

Record Player : Type := {
  player_id : string;
  username : string;
  player_level : number;
  title : string;
  xp : number;
  xpToNextLevel : number;
  avatarUrl : option string;
  joinedDate : string;
  skills : Skills;
  badges : list Badge
}.

Record Level : Type := {
  level_id : number;
  level_name : string;
  level_description : string;
  difficulty : string;
  completed : bool;
  level_unlocked : bool;
  level_score : option number;
  bestTime : option number;
  challenge : Challenge
}.

Record LevelCluster : Type := {
  cluster_id : number;
  cluster_name : string;
  range : string;
  cluster_description : string;
  cluster_unlocked : bool;
  progress : number;
  levels : list Level
}.

Record GameState : Type := {
  player : option Player;
  levelClusters : list LevelCluster;
  currentLevel : option Level
}.

Definition setPlayer (st : GameState) (p : Player) : GameState :=
  {| player := Some p;
     levelClusters := levelClusters st;
     currentLevel := currentLevel st |}.

Definition setLevelClusters (st : GameState) (cs : list LevelCluster) : GameState :=
  {| player := player st;
     levelClusters := cs;
     currentLevel := currentLevel st |}.

Definition setCurrentLevel (st : GameState) (l : Level) : GameState :=
  {| player := player st;
     levelClusters := levelClusters st;
     currentLevel := Some l |}.

(** [1.5] *)
Definition one_and_a_half : number := js_lit 3 / js_lit 2.

(** [updatePlayerProgress(xpEarned)] *)
Definition updatePlayerProgress (st : GameState) (xpEarned : number) : GameState :=
  match player st with
  | None => st
  | Some player =>
      let newXp := xp player + xpEarned in
      let xpNeeded := xpToNextLevel player in
      if newXp >=? xpNeeded
      then
        let newLevel := player_level player + js_lit 1 in
        let remainingXp := newXp - xpNeeded in
        let newXpToNextLevel := Math_round (xpNeeded * one_and_a_half) in
        setPlayer st
          {| player_id := player_id player;
             username := username player;
             player_level := newLevel;
             title := title player;
             xp := remainingXp;
             xpToNextLevel := newXpToNextLevel;
             avatarUrl := avatarUrl player;
             joinedDate := joinedDate player;
             skills := skills player;
             badges := badges player |}
      else
        setPlayer st
          {| player_id := player_id player;
             username := username player;
             player_level := player_level player;
             title := title player;
             xp := newXp;
             xpToNextLevel := xpToNextLevel player;
             avatarUrl := avatarUrl player;
             joinedDate := joinedDate player;
             skills := skills player;
             badges := badges player |}
  end.

(** [level.score || 0] *)
Definition score_or_0 (s : option number) : number :=
  match s with
  | Some n => if truthy n then n else js_lit 0
  | None => js_lit 0
  end.

(** [{...level, completed: true, score: Math.max(score, level.score || 0)}] *)
Definition complete_level (score : number) (level : Level) : Level :=
  {| level_id := level_id level;
     level_name := level_name level;
     level_description := level_description level;
     difficulty := difficulty level;
     completed := true;
     level_unlocked := level_unlocked level;
     level_score := Some (Math_max score (score_or_0 (level_score level)));
     bestTime := bestTime level;
     challenge := challenge level |}.

Definition array_length {A} (l : list A) : number :=
  js_lit (Z.of_nat (List.length l)).

(** The new progress of a cluster, from its updated levels. *)
Definition cluster_progress (updatedLevels : list Level) : number :=
  let completedLevels := array_length (filter completed updatedLevels) in
  if completedLevels >? js_lit 0
  then Math_round ((completedLevels / array_length updatedLevels) * js_lit 100)
  else js_lit 0.

(** The body of the [levelClusters.map] callback of [markLevelCompleted]. *)
Definition update_cluster (levelId score : number) (cluster : LevelCluster)
    : LevelCluster :=
  let updatedLevels :=
    map (fun level =>
           if level_id level === levelId then complete_level score level else level)
        (levels cluster) in
  let progress := cluster_progress updatedLevels in
  {| cluster_id := cluster_id cluster;
     cluster_name := cluster_name cluster;
     range := range cluster;
     cluster_description := cluster_description cluster;
     cluster_unlocked := cluster_unlocked cluster;
     progress := progress;
     levels := updatedLevels |}.

(** [markLevelCompleted(levelId, score)] *)
Definition markLevelCompleted (st : GameState) (levelId score : number) : GameState :=
  let updatedClusters := map (update_cluster levelId score) (levelClusters st) in
  let st := setLevelClusters st updatedClusters in
  match currentLevel st with
  | Some currentLevel =>
      if level_id currentLevel === levelId
      then setCurrentLevel st (complete_level score currentLevel)
      else st
  | None => st
  end.

End GameState.

(* ================================================================= *)
(** ** Challenge page *)

Section ChallengePage.

Context {number : Type} `{JSNumber number}.
Local Open Scope js_scope.

(** [Number(levelId)] on the route parameter. *)
Variable Number_of : string -> number.

(** What a call of [handleSubmitSolution] does: the submission result it
    stores and the route it navigates to, if any. *)
Record SubmitEffect : Type := {
  submissionResult : SubmissionResult (number := number);
  navigate : option string
}.

(** [handleSubmitSolution()], with the route parameter [levelId], the
    editor's [query], the [isSubmitting] flag and the value [random] drawn
    by the service.  [None]: the early return. *)
Definition handleSubmitSolution
    (random : number) (levelId : option string) (query : string)
    (isSubmitting : bool) : option SubmitEffect :=
  match levelId with
  | None => None
  | Some levelId =>
      if negb (nonempty levelId) || negb (nonempty (trim query)) || isSubmitting
      then None
      else
        let result := submitSolution random (Number_of levelId) query in
        Some {| submissionResult := result;
                navigate :=
                  if score result >=? js_lit 70
                  then Some ("/challenge-results/" ++ levelId)%string
                  else None |}
  end.

End ChallengePage.

(* ================================================================= *)
(** ** Leaderboard page *)

Section Leaderboard.

Context {number : Type} `{JSNumber number}.
Local Open Scope js_scope.
Local Open Scope string_scope.

Record LeaderboardEntry : Type := {
  rank : number;
  playerId : string;
  playerName : string;
  entry_level : number;
  entry_xp : number;
  entry_badges : list string;
  entry_avatarUrl : option string;
  isCurrentPlayer : option bool;
  region : option string
}.

Inductive LeaderboardType : Type := global | friends | regional.

Definition is_global (t : LeaderboardType) : bool :=
  match t with global => true | _ => false end.

(** An entry literal without [avatarUrl] and [isCurrentPlayer]. *)
Definition entry (rank : number) (playerId playerName : string)
    (level xp : number) (badges : list string) (region : string)
    : LeaderboardEntry :=
  {| rank := rank; playerId := playerId; playerName := playerName;
     entry_level := level; entry_xp := xp; entry_badges := badges;
     entry_avatarUrl := None; isCurrentPlayer := None;
     region := Some region |}.

Definition mockLeaderboard : list LeaderboardEntry :=
  [ entry (js_lit 1) "player1" "SuperDBA" (js_lit 50) (js_lit 50000)
      ["Index-Pro"; "Query-Master"; "Security-Expert"] "North America";
    entry (js_lit 2) "player2" "QueryMaster42" (js_lit 48) (js_lit 47300)
      ["Tuner"; "Join-Expert"] "Europe";
    entry (js_lit 3) "player3" "DataHero" (js_lit 47) (js_lit 46500)
      ["Sec-Guru"; "Performance-Wizard"] "Asia";
    entry (js_lit 4) "player4" "SQLWizard" (js_lit 45) (js_lit 45200)
      ["Index-Pro"; "Transaction-Master"] "South America";
    entry (js_lit 5) "player5" "JoinMaster" (js_lit 44) (js_lit 44800)
      ["Join-Expert"; "Query-Optimizer"] "Europe";
    entry (js_lit 6) "player6" "SchemaGuru" (js_lit 43) (js_lit 43500)
      ["Schema-Designer"; "Normalization-Expert"] "North America";
    entry (js_lit 7) "player7" "IndexNinja" (js_lit 42) (js_lit 42100)
      ["Index-Pro"; "Performance-Tuner"] "Asia";
    entry (js_lit 8) "player8" "QueryOptimizer" (js_lit 41) (js_lit 41000)
      ["Query-Master"; "Execution-Plan-Expert"] "Europe";
    entry (js_lit 9) "player9" "DBArchitect" (js_lit 40) (js_lit 40500)
      ["Schema-Designer"; "High-Availability-Expert"] "North America";
    entry (js_lit 10) "player10" "SQLMaster" (js_lit 39) (js_lit 39800)
      ["Query-Master"; "Join-Expert"] "Asia";
    entry (js_lit 11) "player11" "DataEngineer" (js_lit 38) (js_lit 38500)
      ["ETL-Expert"; "Performance-Tuner"] "Europe";
    entry (js_lit 12) "player12" "BackupWizard" (js_lit 37) (js_lit 37200)
      ["Backup-Recovery-Expert"; "High-Availability-Expert"] "North America";
    entry (js_lit 13) "player13" "TransactionGuru" (js_lit 36) (js_lit 36800)
      ["Transaction-Master"; "Concurrency-Expert"] "Asia";
    entry (js_lit 14) "player14" "SecurityMaster" (js_lit 35) (js_lit 35500)
      ["Security-Expert"; "Audit-Master"] "Europe";
    entry (js_lit 15) "player15" "PerformanceTuner" (js_lit 34) (js_lit 34200)
      ["Performance-Wizard"; "Query-Optimizer"] "North America";
    entry (js_lit 16) "player16" "ReplicationExpert" (js_lit 33) (js_lit 33800)
      ["Replication-Master"; "High-Availability-Expert"] "Asia";
    entry (js_lit 17) "player17" "SQLDeveloper" (js_lit 32) (js_lit 32500)
      ["Stored-Procedure-Expert"; "Trigger-Master"] "Europe";
    entry (js_lit 18) "player18" "DataModeler" (js_lit 31) (js_lit 31200)
      ["Schema-Designer"; "Normalization-Expert"] "North America";
    entry (js_lit 19) "player19" "CloudDBExpert" (js_lit 30) (js_lit 30800)
      ["Cloud-Migration-Expert"; "Scaling-Master"] "Asia";
    entry (js_lit 20) "player20" "SQLAnalyst" (js_lit 29) (js_lit 29500)
      ["Analytics-Expert"; "Data-Warehouse-Master"] "Europe" ].

(** [Array.prototype.sort(compare)]: a stable sort; an element moves in
    front of another one only when [compare] puts it strictly before. *)
Section Sort.
Variable A : Type.
Variable compare : A -> A -> number.

Fixpoint sort_insert (x : A) (l : list A) : list A :=
  match l with
  | [] => [x]
  | y :: l' =>
      if compare x y >? js_lit 0 then y :: sort_insert x l' else x :: l
  end.

Definition sort (l : list A) : list A := fold_right sort_insert [] l.
End Sort.

(** [(a, b) => a.rank - b.rank] *)
Definition by_rank (a b : LeaderboardEntry) : number := rank a - rank b.

Definition region_is (r : string) (e : LeaderboardEntry) : bool :=
  match region e with
  | Some r' => String.eqb r' r
  | None => false
  end.

Definition name_matches (searchQuery : string) (e : LeaderboardEntry) : bool :=
  includes (toLowerCase (playerName e)) (toLowerCase searchQuery).

(** The two filters and the sort of [loadLeaderboardData]. *)
Definition filter_and_sort (leaderboardType : LeaderboardType)
    (region searchQuery : string) (data : list LeaderboardEntry)
    : list LeaderboardEntry :=
  let filteredData := data in
  let filteredData :=
    if negb (String.eqb region "all") && is_global leaderboardType
    then filter (region_is region) filteredData
    else filteredData in
  let filteredData :=
    if nonempty searchQuery
    then filter (name_matches searchQuery) filteredData
    else filteredData in
  sort by_rank filteredData.

Definition string_or (s : option string) (d : string) : string :=
  match s with
  | Some s => if nonempty s then s else d
  | None => d
  end.

Definition number_or (n : option number) (d : number) : number :=
  match n with
  | Some n => if truthy n then n else d
  | None => d
  end.

Definition badge_names (player : option (@Player number)) : list string :=
  match player with
  | Some p => map badge_name (badges p)
  | None => []
  end.

Definition friendsLeaderboard (player : option (@Player number))
    : list LeaderboardEntry :=
  [ entry (js_lit 1) "friend1" "BestSQLBuddy" (js_lit 42) (js_lit 42000)
      ["Query-Master"; "Join-Expert"] "Europe";
    entry (js_lit 2) "friend2" "CodeFriend" (js_lit 38) (js_lit 38500)
      ["Index-Pro"] "North America";
    entry (js_lit 3) "friend3" "DevBuddy" (js_lit 35) (js_lit 35200)
      ["Performance-Tuner"] "Asia";
    {| rank := js_lit 4;
       playerId := string_or (option_map (@player_id _) player) "currentPlayer";
       playerName := string_or (option_map (@username _) player) "You";
       entry_level := number_or (option_map (@player_level _) player) (js_lit 30);
       entry_xp := number_or (option_map (@xp _) player) (js_lit 30000);
       entry_badges := badge_names player;
       entry_avatarUrl := None;
       isCurrentPlayer := Some true;
       region := Some "Europe" |};
    entry (js_lit 5) "friend4" "SQLPal" (js_lit 28) (js_lit 28500)
      ["Security-Expert"] "South America" ].

(** The entry of the current player, with the rank drawn for it. *)
Definition currentPlayerEntry (random : number) (player : @Player number)
    : LeaderboardEntry :=
  let currentPlayerRank := Math_floor (random * js_lit 100) + js_lit 21 in
  {| rank := currentPlayerRank;
     playerId := player_id player;
     playerName := username player;
     entry_level := player_level player;
     entry_xp := xp player;
     entry_badges := map badge_name (badges player);
     entry_avatarUrl := None;
     isCurrentPlayer := Some true;
     region := Some "Europe" |}.

(** [loadLeaderboardData()] on the entries [mock], with the page's state
    ([player], [leaderboardType], [region], [searchQuery]) and the value
    [random] drawn for the current player's rank.  The result is the pair
    of [leaderboardData] and [totalPages]. *)
Definition loadLeaderboardData
    (mock : list LeaderboardEntry) (random : number)
    (player : option (@Player number)) (leaderboardType : LeaderboardType)
    (region searchQuery : string) : list LeaderboardEntry * number :=
  let mockLeaderboard :=
    match player with
    | Some p =>
        if is_global leaderboardType
        then (mock ++ [currentPlayerEntry random p])%list
        else mock
    | None => mock
    end in
  let filteredData :=
    filter_and_sort leaderboardType region searchQuery mockLeaderboard in
  let filteredData :=
    match leaderboardType with
    | friends => friendsLeaderboard player
    | _ => filteredData
    end in
  let filteredData :=
    match leaderboardType with
    | regional => filter (region_is "Europe") mockLeaderboard
    | _ => filteredData
    end in
  (filteredData, Math_ceil (array_length filteredData / js_lit 10)).

(** The entries that the global leaderboard keeps: those of the selected
    region, unless it is "all", whose name contains the query, if there is
    one. *)
Definition passes_filters (region searchQuery : string) (e : LeaderboardEntry)
    : bool :=
  (String.eqb region "all" || region_is region e) &&
  (negb (nonempty searchQuery) || name_matches searchQuery e).

(** An entry whose rank is a number (not NaN), and the order of ranks. *)
Definition ranked (e : LeaderboardEntry) : Prop := rank e =j= rank e.

Definition rank_le (a b : LeaderboardEntry) : Prop := rank a <j= rank b.

(** The entries that [loadLeaderboardData] starts from in global mode. *)
Definition global_entries (mock : list LeaderboardEntry) (random : number)
    (player : option (@Player number)) : list LeaderboardEntry :=
  match player with
  | Some p => (mock ++ [currentPlayerEntry random p])%list
  | None => mock
  end.

End Leaderboard.

(* ================================================================= *)
(** ** The specification's tables and sample inputs *)

(** The base XP of each difficulty tier, as the specification lists them. *)
Definition tier_base : list (string * Z) :=
  [ ("beginner", 50); ("intermediate", 100); ("advanced", 200);
    ("expert", 400) ]%Z%string.

(** The integers [0 .. n]. *)
Definition integers_upto (n : nat) : list Z := map Z.of_nat (seq 0 (S n)).

(** Rounding half up of the quotient [a / b] of two integers, [b > 0]. *)
Definition round_div (a b : Z) : Z := ((2 * a + b) / (2 * b))%Z.

Section Samples.

Context {number : Type} `{JSNumber number}.
Local Open Scope string_scope.

(** The player of the mock game service. *)
Definition mockPlayer : @Player number :=
  {| player_id := "player1";
     username := "SQLMaster";
     player_level := js_lit 5;
     title := "Junior DBA";
     xp := js_lit 450;
     xpToNextLevel := js_lit 550;
     avatarUrl := Some "/avatars/default.png";
     joinedDate := "2023-01-15";
     skills := {| queryMastery := js_lit 65; indexing := js_lit 40;
                  optimization := js_lit 55; security := js_lit 30 |};
     badges :=
       [ {| badge_id := "badge1"; badge_name := "First Query";
            badge_description := "Executed your first SQL query";
            iconUrl := "/badges/first-query.png";
            earnedDate := Some "2023-01-16" |};
         {| badge_id := "badge2"; badge_name := "Index Master";
            badge_description :=
              "Created an index that improved query performance by 50%";
            iconUrl := "/badges/index-master.png";
            earnedDate := Some "2023-02-10" |} ] |}.

(** The mock player at another point of the ladder. *)
Definition player_at (level xp xpToNextLevel : number) : @Player number :=
  {| player_id := player_id mockPlayer;
     username := username mockPlayer;
     player_level := level;
     title := title mockPlayer;
     xp := xp;
     xpToNextLevel := xpToNextLevel;
     avatarUrl := avatarUrl mockPlayer;
     joinedDate := joinedDate mockPlayer;
     skills := skills mockPlayer;
     badges := badges mockPlayer |}.

(** A hook state that holds the player [p] and nothing else. *)
Definition state_of (p : @Player number) : GameState (number := number) unit :=
  {| player := Some p; levelClusters := []; currentLevel := None |}.

(** A level with the identifier [id], completed or not, without a score. *)
Definition sample_level (id : Z) (done : bool) : Level (number := number) unit :=
  {| level_id := js_lit id;
     level_name := "Level";
     level_description := "";
     difficulty := "beginner";
     completed := done;
     level_unlocked := true;
     level_score := None;
     bestTime := None;
     challenge := tt |}.

(** A cluster of [total] levels, numbered from 1, of which the first [done]
    are completed. *)
Definition sample_cluster (done total : nat) : LevelCluster (number := number) unit :=
  {| cluster_id := js_lit 1;
     cluster_name := "SQL Basics";
     range := "";
     cluster_description := "";
     cluster_unlocked := true;
     progress := js_lit 0;
     levels :=
       map (fun i => sample_level (Z.of_nat i) (Nat.leb i done)) (seq 1 total) |}.

Definition state_of_cluster (c : LevelCluster (number := number) unit)
    : GameState (number := number) unit :=
  {| player := None; levelClusters := [c]; currentLevel := None |}.

End Samples.

(** Sample inputs in binary64: times from 0 to infinity (the smallest
    positive double included), numbers of hints, and draws of
    [Math.random()] from 0 to the largest double below 1. *)
Definition sample_times : list float :=
  [0; 0x1p-1074; 0.05; 0.1; 0.45; 0.5; 0.8; 0.95; 1; 1.2; 2; 2.5; 10; 1e308;
   infinity]%float.

Definition sample_hints : list float :=
  [0; 0.5; 1; 2; 3; 4; 5; 6; 7; 8; 9; 10; 11; 1e308; infinity]%float.

Definition sample_draws : list float :=
  [0; 0x1p-1074; 0.024999; 0.025; 0.25; 0.5; 0.975; 0.999;
   0x1.fffffffffffffp-1]%float.

(* ================================================================= *)
(** ** Further game utilities *)

Section MoreGameUtils.

Context {number : Type} `{JSNumber number}.
Local Open Scope string_scope.
Local Open Scope js_scope.

Variable Challenge : Type.

(** [calculateOverallProgress(clusters)] *)
Definition calculateOverallProgress
    (clusters : list (LevelCluster (number := number) Challenge)) : number :=
  match clusters with
  | [] => js_lit 0
  | _ =>
      let totalProgress :=
        fold_left (fun sum cluster => sum + progress cluster) clusters (js_lit 0) in
      Math_round (totalProgress / array_length clusters)
  end.

(** The literals [0.1] and [0.5]: the quotient of two small integers is the
    double nearest to the decimal, which is what the literal denotes. *)
Definition one_tenth : number := js_lit 1 / js_lit 10.
Definition one_half : number := js_lit 1 / js_lit 2.

(** [getPerformanceRating(executionTime, usedIndex, rowsScanned)] *)
Definition getPerformanceRating
    (executionTime : number) (usedIndex : bool) (rowsScanned : number) : string :=
  if negb usedIndex && (rowsScanned >? js_lit 1000) then "Poor"
  else if executionTime <? one_tenth then "Excellent"
  else if executionTime <? one_half then "Good"
  else if executionTime <? js_lit 2 then "Fair"
  else "Poor".

End MoreGameUtils.

(** [getDifficultyColor(difficulty)] *)
Definition getDifficultyColor (difficulty : string) : string :=
  if String.eqb difficulty "beginner" then "text-green-400"
  else if String.eqb difficulty "intermediate" then "text-blue-400"
  else if String.eqb difficulty "advanced" then "text-yellow-400"
  else if String.eqb difficulty "expert" then "text-red-400"
  else "text-gray-400".

(** [parseInt(s)] without a radix: leading white space, a sign, a [0x]
    prefix for base 16, then the longest run of digits; NaN when there is
    none.  The integer read is turned into a number by [js_lit]. *)
Definition digit_value (radix : Z) (c : ascii) : option Z :=
  let n := Z.of_nat (nat_of_ascii c) in
  let v :=
    if (48 <=? n)%Z && (n <=? 57)%Z then Some (n - 48)%Z
    else if (97 <=? n)%Z && (n <=? 122)%Z then Some (n - 87)%Z
    else if (65 <=? n)%Z && (n <=? 90)%Z then Some (n - 55)%Z
    else None in
  match v with
  | Some d => if (d <? radix)%Z then Some d else None
  | None => None
  end.

Fixpoint parse_digits (radix : Z) (s : string) (acc : option Z) : option Z :=
  match s with
  | EmptyString => acc
  | String c s' =>
      match digit_value radix c with
      | Some d =>
          parse_digits radix s'
            (Some (match acc with Some a => a * radix + d | None => d end)%Z)
      | None => acc
      end
  end.

Definition parseInt {number : Type} `{JSNumber number} (s : string) : number :=
  let s := trimStart s in
  let (negative, s) :=
    match s with
    | String "-" s' => (true, s')
    | String "+" s' => (false, s')
    | _ => (false, s)
    end in
  let (radix, s) :=
    match s with
    | String "0" (String "x" s') | String "0" (String "X" s') => (16, s')
    | _ => (10, s)
    end%Z in
  match parse_digits radix s None with
  | Some z => js_lit (if negative then - z else z)%Z
  | None => js_NaN
  end.

Section PlayerTitles.

Context {number : Type} `{JSNumber number}.
Local Open Scope string_scope.
Local Open Scope js_scope.

(** [Object.entries(PLAYER_TITLES)]: the keys are integer keys, which an
    object lists in ascending order, as they are written. *)
Definition PLAYER_TITLES : list (string * string) :=
  [ ("1", "SQL Novice"); ("5", "Junior DBA"); ("10", "SQL Developer");
    ("15", "Database Analyst"); ("20", "Senior DBA");
    ("25", "Database Architect"); ("30", "SQL Master");
    ("40", "Database Wizard"); ("50", "SQL Legend") ].

(** [getPlayerTitle(level)] *)
Definition getPlayerTitle (level : number) : string :=
  let titles :=
    sort (fun a b : string * string => parseInt (fst b) - parseInt (fst a))
         (filter (fun entry : string * string => parseInt (fst entry) <=? level)
                 PLAYER_TITLES) in
  match titles with
  | t :: _ => snd t
  | [] => "SQL Novice"
  end.

End PlayerTitles.

(* ================================================================= *)
(** ** Further game service functions (mock) *)

(** The decimal text of a small natural number, as a template literal
    prints an array index. *)
Fixpoint decimal_digits (fuel n : nat) (acc : string) : string :=
  match fuel with
  | O => acc
  | S fuel' =>
      let acc' := String (ascii_of_nat (48 + n mod 10)) acc in
      if (n / 10 =? 0)%nat then acc' else decimal_digits fuel' (n / 10) acc'
  end.

Definition decimal (n : nat) : string := decimal_digits (S n) n EmptyString.

Section MoreGameService.

Context {number : Type} `{JSNumber number}.
Local Open Scope string_scope.
Local Open Scope js_scope.

Variable Challenge : Type.

(** [getLevelById(levelId)], on the clusters of the service. *)
Fixpoint getLevelById
    (clusters : list (LevelCluster (number := number) Challenge))
    (levelId : number) : option (Level (number := number) Challenge) :=
  match clusters with
  | [] => None
  | cluster :: clusters' =>
      match find (fun l => level_id l === levelId) (levels cluster) with
      | Some level => Some level
      | None => getLevelById clusters' levelId
      end
  end.

Record Row : Type := {
  row_id : number;
  row_name : string;
  row_value : number
}.

Record QueryResult : Type := {
  executionTime : number;
  rowCount : number;
  needsIndexing : option bool;
  executionPlan : option string;
  data : list Row;
  message : option string;
  error : option string
}.

(** The values that [Math.random()] returns during a call of
    [executeQuery], in the order of the calls: for the delay, the execution
    time, the row count, the indexing flag, and one for each data row. *)
Record QueryDraws : Type := {
  delay_draw : number;
  time_draw : number;
  rows_draw : number;
  indexing_draw : number;
  value_draw : nat -> number
}.

(** [executeQuery(query, datasetId)] *)
Definition executeQuery (draws : QueryDraws) (query datasetId : string)
    : QueryResult :=
  if negb (includes (toLowerCase query) "select")
  then
    {| executionTime := js_lit 0;
       rowCount := js_lit 0;
       needsIndexing := None;
       executionPlan := None;
       data := [];
       message := None;
       error := Some "Syntax error: Query must include a SELECT statement" |}
  else
    {| executionTime := js_lit 45 / js_lit 100 + time_draw draws * one_half;
       rowCount := Math_floor (rows_draw draws * js_lit 100) + js_lit 1;
       needsIndexing := Some (indexing_draw draws >? js_lit 7 / js_lit 10);
       executionPlan :=
         Some "Seq Scan on table (cost=0.00..35.50 rows=10 width=72)";
       data :=
         map (fun i : nat =>
                {| row_id := js_lit (Z.of_nat i) + js_lit 1;
                   row_name := ("Sample Data " ++ decimal (i + 1))%string;
                   row_value := Math_floor (value_draw draws i * js_lit 1000) |})
             (seq 0 10);
       message := None;
       error := None |}.

End MoreGameService.

(* ================================================================= *)
(** ** Challenge page: hints *)

Section Hints.

Context {number : Type} `{JSNumber number}.
Local Open Scope js_scope.

(** [handleHintRequest()]: the new value of [hintsUsed].  [hints] is
    [level?.challenge?.hints], absent while no level is loaded. *)
Definition handleHintRequest (hints : option (list string)) (hintsUsed : number)
    : number :=
  match hints with
  | None => hintsUsed
  | Some hints =>
      if hintsUsed >=? array_length hints then hintsUsed
      else hintsUsed + js_lit 1
  end.

(** [n] requests in a row. *)
Fixpoint hint_requests (n : nat) (hints : option (list string))
    (hintsUsed : number) : number :=
  match n with
  | O => hintsUsed
  | S n' => hint_requests n' hints (handleHintRequest hints hintsUsed)
  end.

End Hints.

(* ================================================================= *)
(** ** Leaderboard page: pages *)

Section Pages.

Context {number : Type} `{JSNumber number}.
Local Open Scope js_scope.

(** The integer that an index argument is converted to: truncation, with
    NaN read as 0. *)
Definition ToIntegerOrInfinity (x : number) : number :=
  if x === x then (if x <? js_lit 0 then Math_ceil x else Math_floor x)
  else js_lit 0.

(** A relative index of [slice], brought into [0, len]. *)
Definition relative_index (len x : number) : number :=
  let i := ToIntegerOrInfinity x in
  if i <? js_lit 0 then Math_max (len + i) (js_lit 0) else Math_min i len.

(** [array.slice(start, end)]: the elements at the positions from
    [start] up to, not including, [end]. *)
Definition Array_slice {A : Type} (l : list A) (start final : number) : list A :=
  let len := array_length l in
  let k := relative_index len start in
  let final := relative_index len final in
  map snd
      (filter (fun p : nat * A =>
                 (k <=? js_lit (Z.of_nat (fst p))) &&
                 (js_lit (Z.of_nat (fst p)) <? final))
              (combine (seq 0 (List.length l)) l)).

(** [getCurrentPageData()] *)
Definition getCurrentPageData
    (leaderboardData : list (LeaderboardEntry (number := number)))
    (currentPage : number) : list LeaderboardEntry :=
  let startIndex := (currentPage - js_lit 1) * js_lit 10 in
  let endIndex := startIndex + js_lit 10 in
  Array_slice leaderboardData startIndex endIndex.

(** The buttons of the pagination bar: Previous, the page numbers
    [i + 1] for the indices [i] below [totalPages], and Next. *)
Inductive PageButton : Type :=
  | PreviousPage
  | PageNumber (i : nat)
  | NextPage.

(** The bar is rendered when there is more than one page. *)
Definition pagination_shown
    (leaderboardData : list (LeaderboardEntry (number := number)))
    (totalPages : number) : bool :=
  (array_length leaderboardData >? js_lit 0) && (totalPages >? js_lit 1).

(** A button that is rendered and not disabled.  The page numbers come
    from [Array.from({ length: totalPages }, ...)], whose length is
    [totalPages] truncated to an integer. *)
Definition button_enabled (currentPage totalPages : number) (b : PageButton)
    : bool :=
  match b with
  | PreviousPage => negb (currentPage === js_lit 1)
  | PageNumber i => js_lit (Z.of_nat i) <? Math_floor totalPages
  | NextPage => negb (currentPage === totalPages)
  end.

(** The page that a click on the button passes to [handlePageChange],
    which stores it as [currentPage]. *)
Definition click (currentPage : number) (b : PageButton) : number :=
  match b with
  | PreviousPage => currentPage - js_lit 1
  | PageNumber i => js_lit (Z.of_nat i) + js_lit 1
  | NextPage => currentPage + js_lit 1
  end.

End Pages.

(* ================================================================= *)
(** ** Requests to the API *)

Definition API_BASE_URL : string := "http://localhost:8000/api".

(** The endpoint as [fetchWithAuth] normalizes it, and the URL it requests. *)
Definition normalizedEndpoint (endpoint : string) : string :=
  if String.prefix "/" endpoint then endpoint else ("/" ++ endpoint)%string.

Definition request_url (endpoint : string) : string :=
  (API_BASE_URL ++ normalizedEndpoint endpoint)%string.

(* ================================================================= *)
(** ** Orders, ranges and tables used in the statements *)

(** The four performance ratings, from best to worst. *)
Definition rating_rank (rating : string) : nat :=
  if String.eqb rating "Excellent" then 0
  else if String.eqb rating "Good" then 1
  else if String.eqb rating "Fair" then 2
  else 3.

(** The levels at which [PLAYER_TITLES] gives a new title. *)
Definition title_levels : list Z := [5; 10; 15; 20; 25; 30; 40; 50]%Z.

Section Ranges.

Context {number : Type} `{JSNumber number}.
Local Open Scope js_scope.

(** A percentage: a number from 0 to 100. *)
Definition percent (x : number) : Prop := js_lit 0 <j= x /\ x <j= js_lit 100.

(** An integer from [lo] to [hi]. *)
Definition integer_between (lo hi : Z) (x : number) : Prop :=
  js_lit lo <j= x /\ x <j= js_lit hi /\ Math_floor x =j= x.

(** A value that [Math.random()] can return. *)
Definition drawn (x : number) : Prop := js_lit 0 <j= x /\ x <j js_lit 1.

(** The progress of a cluster with [done] completed levels out of [total],
    as [cluster_progress] computes it from the two counts. *)
Definition progress_of_counts (done total : nat) : number :=
  if js_lit (Z.of_nat done) >? js_lit 0
  then Math_round ((js_lit (Z.of_nat done) / js_lit (Z.of_nat total)) * js_lit 100)
  else js_lit 0.

Variable Challenge : Type.



End Ranges.

(** A cluster with the given levels and stored progress. *)
Definition cluster_of {number : Type} `{JSNumber number} {Challenge : Type}
    (stored : number) (ls : list (Level (number := number) Challenge))
    : LevelCluster (number := number) Challenge :=
  {| cluster_id := js_lit 1;
     cluster_name := "SQL Basics";
     range := "1-10";
     cluster_description := "";
     cluster_unlocked := true;
     progress := stored;
     levels := ls |}.

(** Draws of [executeQuery] that are all [x]. *)
Definition constant_draws {number : Type} `{JSNumber number} (x : number)
    : QueryDraws (number := number) :=
  {| delay_draw := x; time_draw := x; rows_draw := x; indexing_draw := x;
     value_draw := fun _ => x |}.

(* ================================================================= *)
(** * Properties *)

(* ================================================================= *)
(** ** Exact arithmetic: reflection and rounding *)

Lemma Qcompare_cases (x y : Q) : CompareSpec (x == y) (x < y) (y < x) (x ?= y).
Proof.
  destruct (x ?= y) eqn:E; constructor.
  - now apply Qeq_alt.
  - now apply Qlt_alt.
  - now apply Qgt_alt.
Qed.

Lemma Qltb_spec (x y : Q) : reflect (x < y) (Qltb x y).
Proof.
  unfold Qltb. destruct (x ?= y) eqn:E; constructor.
  - apply Qeq_alt in E. lra.
  - now apply Qlt_alt.
  - apply Qgt_alt in E. lra.
Qed.

Lemma Qle_bool_spec (x y : Q) : reflect (x <= y) (Qle_bool x y).
Proof. apply iff_reflect. symmetry. apply Qle_bool_iff. Qed.

Lemma Qeq_bool_spec (x y : Q) : reflect (x == y) (Qeq_bool x y).
Proof. apply iff_reflect. symmetry. apply Qeq_bool_iff. Qed.

(** Case analysis on every comparison of rationals in sight. *)
Ltac qcases :=
  repeat match goal with
  | |- context [Qltb ?a ?b] => destruct (Qltb_spec a b)
  | |- context [Qle_bool ?a ?b] => destruct (Qle_bool_spec a b)
  | |- context [Qeq_bool ?a ?b] => destruct (Qeq_bool_spec a b)
  | |- context [(?a ?= ?b)%Q] => destruct (Qcompare_cases a b)
  | H : context [Qltb ?a ?b] |- _ => destruct (Qltb_spec a b)
  | H : context [Qle_bool ?a ?b] |- _ => destruct (Qle_bool_spec a b)
  | H : context [Qeq_bool ?a ?b] |- _ => destruct (Qeq_bool_spec a b)
  | H : context [(?a ?= ?b)%Q] |- _ => destruct (Qcompare_cases a b)
  end.

(** Unfolds the operations of the exact instance, and nothing below them. *)
Ltac xsimpl :=
  cbn [js_lit js_NaN js_add js_sub js_mul js_div js_lt js_le js_eq
       Math_round Math_floor Math_ceil Math_max Math_min xnum_number
       xadd xsub xmul xdiv xlt xle xeq xround xfloor xceil xmax xmin
       xisnan xsign orb andb negb] in *.

Ltac lit_const z := change (inject_Z z) with (z # 1) in *.

(** The integer literals of the sources, as rationals. *)
Ltac lits :=
  lit_const 0%Z; lit_const 1%Z; lit_const 2%Z; lit_const 3%Z; lit_const 5%Z;
  lit_const 10%Z; lit_const 20%Z; lit_const 21%Z; lit_const 30%Z;
  lit_const 40%Z; lit_const 50%Z; lit_const 60%Z; lit_const 70%Z;
  lit_const 80%Z; lit_const 99%Z; lit_const 100%Z; lit_const 200%Z;
  lit_const 400%Z.

Ltac xauto := xsimpl; lits; qcases; xsimpl; qcases; try discriminate; try lra.

Lemma round_nonneg (x : Q) : 0 <= x -> 0 <= inject_Z (Qfloor (x + (1 # 2))).
Proof.
  intros Hx. change 0 with (inject_Z 0). rewrite <- Zle_Qle.
  change 0%Z with (Qfloor 0). apply Qfloor_resp_le. lra.
Qed.

Lemma round_nonneg_Z (x : Q) : 0 <= x -> (0 <= Qfloor (x + (1 # 2)))%Z.
Proof.
  intros Hx. change 0%Z with (Qfloor 0). apply Qfloor_resp_le. lra.
Qed.

(** Records that a rounded value in sight is not negative. *)
Ltac round_fact :=
  match goal with
  | _ : context [Qfloor (?x + (1 # 2))] |- _ =>
      let H := fresh "Hround" in
      assert (H : 0 <= inject_Z (Qfloor (x + (1 # 2))))
        by (apply round_nonneg; lra)
  | |- context [Qfloor (?x + (1 # 2))] =>
      let H := fresh "Hround" in
      assert (H : 0 <= inject_Z (Qfloor (x + (1 # 2))))
        by (apply round_nonneg; lra)
  end.

(* ================================================================= *)
(** ** binary64: the roundings on sample values *)

Example float_round_samples :
  map float_round [2.5; 3.5; -2.5; -2.6; 0.49999999999999994; 57.499999999999993;
                   57.5; 4503599627370497; infinity]%float
  = [3; 4; -2; -3; 0; 57; 58; 4503599627370497; infinity]%float.
Proof. vm_compute. reflexivity. Qed.

Example float_floor_ceil_samples :
  map float_floor [39.999999999999993; -0.5; 7; 0.5]%float
  = [39; -1; 7; 0]%float /\
  map float_ceil [0.1; 2; 2.0000000000000004; -1.5]%float
  = [1; 2; 3; -1]%float.
Proof. split; vm_compute; reflexivity. Qed.

(* ================================================================= *)
(** ** Scoring: [calculateChallengeScore] *)

(** With a non-negative number of hints, the score is a finite number
    between 0 and 100, and the same number as the specification's formula
    gives. *)
Lemma score_value (e o : xnum) (ui ir : bool) (h : xnum) :
  js_lit 0 <j= h ->
  exists s s' : Q,
    calculateChallengeScore e o ui ir h = Fin s /\
    spec_overall e o ui ir h = Fin s' /\ s == s' /\ 0 <= s <= 100.
Proof.
  intros Hh. unfold calculateChallengeScore, spec_overall, clamp.
  generalize (e / o)%js. intros r.
  destruct h as [hq | | |]; try discriminate Hh;
    destruct r as [q | | |]; destruct (ir && negb ui); xsimpl; lits.
  all: qcases; xsimpl; qcases; xsimpl; qcases; xsimpl; qcases; try lra.
  all: try round_fact.
  all: do 2 eexists; (split; [reflexivity | split; [reflexivity | ]]); lra.
Qed.

(** In exact arithmetic the score follows the formula of the specification:
    for every attempt with a non-negative number of hints it is 100 less the
    time penalty min(30, round((executionTime / optimalTime - 1) * 20)) when
    the ratio exceeds 1, less 20 when an index was required and not used,
    less 10 for each hint, clamped to [0, 100].  The scenario
    executionTime = 1.2, optimalTime = 0.8, index required and not used, one
    hint, scores 60, in exact arithmetic and in binary64. *)
Theorem calculateChallengeScore_follows_formula :
  (forall (executionTime optimalTime : xnum) (usedIndex indexRequired : bool)
          (hintsUsed : xnum),
      js_lit 0 <j= hintsUsed ->
      calculateChallengeScore executionTime optimalTime usedIndex indexRequired hintsUsed
      =j= spec_overall executionTime optimalTime usedIndex indexRequired hintsUsed) /\
  calculateChallengeScore (Fin 1.2) (Fin 0.8) false true (Fin 1) =j= js_lit 60 /\
  calculateChallengeScore 1.2%float 0.8%float false true 1%float = 60%float.
Proof.
  split; [ | split; vm_compute; reflexivity].
  intros e o ui ir h Hh.
  destruct (@score_value e o ui ir h Hh) as (s & s' & -> & -> & Heq & _).
  xsimpl. now apply Qeq_bool_iff.
Qed.

Lemma calculateChallengeScore_follows_formula_witness :
  js_lit 0 <j= Fin 1 /\
  calculateChallengeScore (Fin 1.2) (Fin 0.8) false true (Fin 1)
  =j= spec_overall (Fin 1.2) (Fin 0.8) false true (Fin 1).
Proof.
  split; [reflexivity | ].
  apply (proj1 calculateChallengeScore_follows_formula). reflexivity.
Defined.


(** C6. For all valid inputs (executionTime >= 0, optimalTime > 0,
    hintsUsed >= 0) the score lies in [0, 100]. *)
Theorem calculateChallengeScore_in_range
    (executionTime optimalTime : xnum) (usedIndex indexRequired : bool)
    (hintsUsed : xnum) :
  js_lit 0 <j= executionTime -> js_lit 0 <j optimalTime ->
  js_lit 0 <j= hintsUsed ->
  js_lit 0 <j= calculateChallengeScore executionTime optimalTime usedIndex indexRequired hintsUsed /\
  calculateChallengeScore executionTime optimalTime usedIndex indexRequired hintsUsed
  <j= js_lit 100.
Proof.
  intros _ _ Hh.
  destruct (@score_value executionTime optimalTime usedIndex indexRequired
              hintsUsed Hh) as (s & s' & -> & _ & _ & Hs).
  xsimpl. lits. split; apply Qle_bool_iff; lra.
Qed.

Lemma calculateChallengeScore_in_range_witness :
  (js_lit 0 <j= Fin 3 /\ js_lit 0 <j Fin 0.5 /\ js_lit 0 <j= Fin 9) /\
  js_lit 0 <j= calculateChallengeScore (Fin 3) (Fin 0.5) false true (Fin 9) /\
  calculateChallengeScore (Fin 3) (Fin 0.5) false true (Fin 9) <j= js_lit 100.
Proof.
  split; [repeat split | ].
  apply calculateChallengeScore_in_range; reflexivity.
Defined.

(** The same inputs in binary64: every penalty applies and the score is
    clamped at 0. *)
Example calculateChallengeScore_floor_binary64 :
  calculateChallengeScore 3%float 0.5%float false true 9%float = 0%float.
Proof. vm_compute. reflexivity. Qed.

(** In binary64, on the sample times (as execution and as optimal time),
    index flags and hints, the score is the number that the specification's
    formula gives and lies in [0, 100]. *)
Lemma calculateChallengeScore_binary64_samples :
  forallb (fun e => forallb (fun o =>
    forallb (fun ui => forallb (fun ir => forallb (fun h =>
      PrimFloat.eqb (calculateChallengeScore e o ui ir h)
                    (spec_overall e o ui ir h)
      && PrimFloat.leb 0 (calculateChallengeScore e o ui ir h)
      && PrimFloat.leb (calculateChallengeScore e o ui ir h) 100)
      sample_hints) [false; true]) [false; true])
    sample_times) sample_times = true.
Proof. vm_compute. reflexivity. Qed.

(** The hypothesis on the hints is needed: the source clamps at 0 only, and
    a negative number of hints raises the score above 100. *)
Example calculateChallengeScore_negative_hints :
  calculateChallengeScore (Fin 1) (Fin 1) true false (Fin (-1)) =j= js_lit 110 /\
  calculateChallengeScore 1%float 1%float true false (-1)%float = 110%float.
Proof. split; vm_compute; reflexivity. Qed.

(* ================================================================= *)
(** ** Mock evaluation: [submitSolution] *)

Lemma floor_range (x : Q) (lo hi : Z) :
  inject_Z lo <= x -> x < inject_Z hi -> (lo <= Qfloor x < hi)%Z.
Proof.
  intros Hlo Hhi. split.
  - rewrite <- (Qfloor_Z lo). now apply Qfloor_resp_le.
  - rewrite Zlt_Qlt. pose proof (Qfloor_le x). lra.
Qed.




(** In binary64, on the sample draws, the score is an integer from 60 to 99
    and xpEarned the floor of its half. *)
Lemma submitSolution_binary64_samples :
  forallb (fun r =>
    PrimFloat.leb 60 (score (submitSolution r 1%float "SELECT 1"))
    && PrimFloat.leb (score (submitSolution r 1%float "SELECT 1")) 99
    && PrimFloat.eqb (Math_floor (score (submitSolution r 1%float "SELECT 1")))
                     (score (submitSolution r 1%float "SELECT 1"))
    && PrimFloat.eqb (xpEarned (submitSolution r 1%float "SELECT 1"))
                     (Math_floor (score (submitSolution r 1%float "SELECT 1") / 2)%float))
    sample_draws = true.
Proof. vm_compute. reflexivity. Qed.

(* ================================================================= *)
(** ** Experience points: [calculateXpEarned] *)

Lemma xp_multiple_of_5 (b : Z) (s : Q) :
  (0 <= b)%Z -> 0 <= s ->
  exists k : Z, (0 <= k)%Z /\
    (Math_round ((js_lit b * (Fin s / js_lit 100)) / js_lit 5) * js_lit 5)%js
    =j= js_lit (5 * k).
Proof.
  intros Hb Hs. xsimpl.
  change (Qeq_bool (inject_Z 100) 0) with false.
  change (Qeq_bool (inject_Z 5) 0) with false. xsimpl.
  exists (Qfloor (inject_Z b * (s / inject_Z 100) / inject_Z 5 + (1 # 2))).
  split.
  - apply round_nonneg_Z.
    assert (0 <= inject_Z b)
      by (change 0 with (inject_Z 0); now rewrite <- Zle_Qle).
    assert (0 <= inject_Z b * (s / inject_Z 100)).
    { apply Qmult_le_0_compat; [assumption | ].
      apply Qle_shift_div_l; [reflexivity | lra]. }
    apply Qle_shift_div_l; [reflexivity | lra].
  - apply Qeq_bool_iff. rewrite inject_Z_mult. lits. ring.
Qed.

(** The four tiers are own properties of [baseXp], with the bases of the
    specification. *)
Lemma tier_lookup (d : string) (base : Z) (score : xnum) :
  In (d, base) tier_base ->
  (0 <= base)%Z /\
  calculateXpEarned d score
  = (Math_round ((js_lit base * (score / js_lit 100)) / js_lit 5) * js_lit 5)%js.
Proof.
  unfold tier_base. cbn [In]. intros Hin.
  repeat (destruct Hin as [Hin | Hin]); try contradiction;
    inversion Hin; subst d base; (split; [lia | reflexivity]).
Qed.

(** In exact arithmetic, for every difficulty tier with its base (beginner
    50, intermediate 100, advanced 200, expert 400) and every score in
    [0, 100], xpEarned is round((base * score / 100) / 5) * 5, a
    non-negative multiple of 5.  Beginner tier with score 60 yields 30, in
    exact arithmetic and in binary64. *)
Theorem calculateXpEarned_tiers :
  (forall (d : string) (base : Z) (score : xnum),
      In (d, base) tier_base ->
      js_lit 0 <j= score -> score <j= js_lit 100 ->
      calculateXpEarned d score
      = (Math_round ((js_lit base * (score / js_lit 100)) / js_lit 5)
         * js_lit 5)%js /\
      exists k : Z,
        (0 <= k)%Z /\ calculateXpEarned d score =j= js_lit (5 * k)) /\
  calculateXpEarned "beginner" (Fin 60) =j= js_lit 30 /\
  calculateXpEarned "beginner" 60%float = 30%float.
Proof.
  split; [ | split; vm_compute; reflexivity].
  intros d base score Hin H0 H100.
  destruct score as [s | | |]; try discriminate.
  assert (Hs : 0 <= s <= 100) by xauto.
  destruct (@tier_lookup d base (Fin s) Hin) as [Hb ->].
  split; [reflexivity | ].
  apply xp_multiple_of_5; [assumption | lra].
Qed.

Lemma calculateXpEarned_tiers_witness :
  (In ("expert"%string, 400%Z) tier_base /\
   js_lit 0 <j= Fin 87 /\ Fin 87 <j= js_lit 100) /\
  calculateXpEarned "expert" (Fin 87)
  = (Math_round ((js_lit 400 * (Fin 87 / js_lit 100)) / js_lit 5) * js_lit 5)%js /\
  exists k : Z, (0 <= k)%Z /\ calculateXpEarned "expert" (Fin 87) =j= js_lit (5 * k).
Proof.
  split; [split; [right; right; right; left; reflexivity | split; reflexivity] | ].
  apply (proj1 calculateXpEarned_tiers);
    [right; right; right; left; reflexivity | reflexivity | reflexivity].
Defined.

(** In binary64, on every tier and every integer score from 0 to 100, the
    result is the integer that exact arithmetic gives: round half up of
    [base * score / 500], times 5. *)
Lemma calculateXpEarned_binary64_integer_scores :
  forallb (fun tier : string * Z =>
    forallb (fun s : Z =>
      PrimFloat.eqb (calculateXpEarned (fst tier) (float_of_Z s))
                    (float_of_Z (round_div (snd tier * s) 500 * 5)))
      (integers_upto 100))
    tier_base = true.
Proof. vm_compute. reflexivity. Qed.


(** A difficulty that names neither a tier nor a member of
    [Object.prototype] gets the beginner base. *)
Lemma calculateXpEarned_default (d : string) (score : xnum) :
  own_property (number := xnum) baseXp d = None ->
  existsb (String.eqb d) Object_prototype = false ->
  calculateXpEarned d score = calculateXpEarned "beginner" score.
Proof.
  intros Hown Hproto. unfold calculateXpEarned, js_get.
  rewrite Hown, Hproto. reflexivity.
Qed.

Lemma calculateXpEarned_default_binary64 (d : string) (score : float) :
  own_property (number := float) baseXp d = None ->
  existsb (String.eqb d) Object_prototype = false ->
  calculateXpEarned d score = calculateXpEarned "beginner" score.
Proof.
  intros Hown Hproto. unfold calculateXpEarned, js_get.
  rewrite Hown, Hproto. reflexivity.
Qed.

Example calculateXpEarned_unknown_tier :
  calculateXpEarned "legendary" (Fin 60) =j= js_lit 30.
Proof. reflexivity. Qed.

(** C10 fails on a difficulty that names a member of [Object.prototype]:
    ["toString"] is none of the four tiers, the lookup finds the inherited
    function, the default is not taken and the result is NaN, where the
    beginner base gives 30. *)
Theorem calculateXpEarned_inherited_key :
  ~ In "toString"%string (map fst tier_base) /\
  PrimFloat.is_nan (calculateXpEarned "toString" 60%float) = true /\
  calculateXpEarned "toString" (Fin 60) = XNaN /\
  calculateXpEarned "beginner" 60%float = 30%float.
Proof.
  split.
  - cbn. intros H. repeat (destruct H as [H | H]; [discriminate H | ]).
    exact H.
  - repeat split; vm_compute; reflexivity.
Qed.

(* ================================================================= *)
(** ** Level ladder: [updatePlayerProgress] *)

(** Case analysis on the three numbers of an XP update. *)
Ltac xp_cases p xpEarned :=
  let x := fresh "x" in
  let t := fresh "t" in
  let e := fresh "e" in
  destruct (xp p) as [x | | |], (xpToNextLevel p) as [t | | |],
           xpEarned as [e | | |];
  intros; try discriminate; xauto; try reflexivity.

(** C2, as stated, fails: the update levels up once at most.  The mock
    player (level 5, xp 450 of 550) awarded 1000 XP ends at level 6 with
    xp 900 against a threshold of 825. *)
Lemma large_reward_breaks_invariant :
  exists (st : GameState unit) (xpEarned : float) (p p' : Player),
    player st = Some p /\
    js_lit 0 <j= xp p /\ xp p <j xpToNextLevel p /\ js_lit 0 <j= xpEarned /\
    player (updatePlayerProgress st xpEarned) = Some p' /\
    player_level p' = 6%float /\ xp p' = 900%float /\
    xpToNextLevel p' = 825%float /\
    xpToNextLevel p' <j= xp p'.
Proof.
  exists (state_of mockPlayer), 1000%float, mockPlayer.
  eexists. repeat split; vm_compute; reflexivity.
Qed.

(** C2, amended.  From a state with 0 <= xp < xpToNextLevel, a reward
    xpEarned >= 0 is applied with one conditional level-up: below the
    threshold the XP is added; otherwise the threshold is subtracted once,
    the level rises by one and the threshold becomes round(1.5 times the old
    one).  The new state satisfies 0 <= xp < xpToNextLevel whenever
    xp + xpEarned is below the old threshold plus the new one.  Level 1 with
    xp 900 of 1000, awarded 150, becomes level 2 with xp 50 of 1500, in
    exact arithmetic and in binary64. *)
Theorem updatePlayerProgress_one_level_up :
  (forall (Challenge : Type) (st : GameState Challenge) (p : Player)
          (xpEarned : xnum),
      player st = Some p ->
      js_lit 0 <j= xp p -> xp p <j xpToNextLevel p ->
      js_lit 0 <j= xpEarned ->
      (xp p + xpEarned
       <j xpToNextLevel p + Math_round (xpToNextLevel p * one_and_a_half))%js ->
      exists p' : Player,
        player (updatePlayerProgress st xpEarned) = Some p' /\
        (if (xp p + xpEarned >=? xpToNextLevel p)%js
         then player_level p' = (player_level p + js_lit 1)%js /\
              xp p' = (xp p + xpEarned - xpToNextLevel p)%js /\
              xpToNextLevel p'
              = Math_round (xpToNextLevel p * one_and_a_half)%js
         else player_level p' = player_level p /\
              xp p' = (xp p + xpEarned)%js /\
              xpToNextLevel p' = xpToNextLevel p) /\
        js_lit 0 <j= xp p' /\ xp p' <j xpToNextLevel p') /\
  (exists p' : Player,
      player (updatePlayerProgress
                (state_of (player_at (Fin 1) (Fin 900) (Fin 1000))) (Fin 150))
      = Some p' /\
      player_level p' =j= js_lit 2 /\ xp p' =j= js_lit 50 /\
      xpToNextLevel p' =j= js_lit 1500) /\
  player (updatePlayerProgress
            (state_of (player_at 1%float 900%float 1000%float)) 150%float)
  = Some (player_at 2%float 50%float 1500%float).
Proof.
  split; [ | split].
  - intros Challenge st p xpEarned Hp H0 Hlt He Hbound.
    unfold updatePlayerProgress. rewrite Hp.
    destruct (xp p + xpEarned >=? xpToNextLevel p)%js eqn:Hup;
      (eexists; split; [reflexivity | ]);
      cbn [player setPlayer player_level xp xpToNextLevel];
      (split; [repeat split | ]);
      revert H0 Hlt He Hbound Hup; unfold one_and_a_half;
      xp_cases p xpEarned.
  - eexists. split; [vm_compute; reflexivity | ].
    repeat split; reflexivity.
  - vm_compute. reflexivity.
Qed.

Lemma updatePlayerProgress_one_level_up_witness :
  exists p' : Player,
    player (updatePlayerProgress (state_of mockPlayer) (Fin 400)) = Some p' /\
    (if (xp mockPlayer + Fin 400 >=? xpToNextLevel mockPlayer)%js
     then player_level p' = (player_level mockPlayer + js_lit 1)%js /\
          xp p' = (xp mockPlayer + Fin 400 - xpToNextLevel mockPlayer)%js /\
          xpToNextLevel p'
          = Math_round (xpToNextLevel mockPlayer * one_and_a_half)%js
     else player_level p' = player_level mockPlayer /\
          xp p' = (xp mockPlayer + Fin 400)%js /\
          xpToNextLevel p' = xpToNextLevel mockPlayer) /\
    js_lit 0 <j= xp p' /\ xp p' <j xpToNextLevel p'.
Proof.
  apply (proj1 updatePlayerProgress_one_level_up unit (state_of mockPlayer)
           mockPlayer (Fin 400)); reflexivity.
Defined.

(** C8, as stated, fails: nothing validates xpEarned.  The mock player
    (xp 450 of 550) awarded -100 is left with xp 350; the update returns
    an ordinary state. *)
Lemma negative_reward_is_applied :
  exists (st : GameState unit) (xpEarned : float) (p p' : Player),
    player st = Some p /\ xpEarned <j js_lit 0 /\
    player (updatePlayerProgress st xpEarned) = Some p' /\
    xp p = 450%float /\ xp p' = 350%float /\
    updatePlayerProgress st xpEarned <> st.
Proof.
  exists (state_of mockPlayer), (-100)%float, mockPlayer.
  eexists. repeat split; try (vm_compute; reflexivity).
  vm_compute. intros Heq. inversion Heq.
Qed.

(** C8, amended.  From a state with 0 <= xp < xpToNextLevel, a negative
    xpEarned is applied like any other: xp becomes xp + xpEarned, which is
    below the old xp, and level and threshold stay as they are. *)
Theorem updatePlayerProgress_negative
    (Challenge : Type) (st : GameState Challenge) (p : Player)
    (xpEarned : xnum) :
  player st = Some p ->
  js_lit 0 <j= xp p -> xp p <j xpToNextLevel p ->
  xpEarned <j js_lit 0 ->
  exists p' : Player,
    player (updatePlayerProgress st xpEarned) = Some p' /\
    xp p' = (xp p + xpEarned)%js /\
    xp p' <j xp p /\
    player_level p' = player_level p /\
    xpToNextLevel p' = xpToNextLevel p.
Proof.
  intros Hp H0 Hlt He.
  unfold updatePlayerProgress. rewrite Hp.
  assert (Hup : (xp p + xpEarned >=? xpToNextLevel p)%js = false)
    by (revert H0 Hlt He; xp_cases p xpEarned).
  rewrite Hup. eexists; split; [reflexivity | ].
  cbn [player setPlayer player_level xp xpToNextLevel].
  repeat split.
  revert H0 Hlt He; xp_cases p xpEarned.
Qed.

Lemma updatePlayerProgress_negative_witness :
  exists p' : Player,
    player (updatePlayerProgress (state_of mockPlayer) (Fin (-100))) = Some p' /\
    xp p' = (xp mockPlayer + Fin (-100))%js /\
    xp p' <j xp mockPlayer /\
    player_level p' = player_level mockPlayer /\
    xpToNextLevel p' = xpToNextLevel mockPlayer.
Proof.
  apply (@updatePlayerProgress_negative unit (state_of mockPlayer) mockPlayer
           (Fin (-100))); reflexivity.
Defined.

(* ================================================================= *)
(** ** Level completion and cluster progress: [markLevelCompleted] *)

Section Completion.

Context {number : Type} `{JSNumber number}.
Variable Challenge : Type.

Implicit Types (l : Level (number := number) Challenge).
Implicit Types (ls : list (Level (number := number) Challenge)).
Implicit Types (c : LevelCluster (number := number) Challenge).

(** After the update of a cluster, a level is completed when it was
    completed before or is the level addressed. *)
Lemma update_cluster_completed (levelId score : number) c :
  map (@completed _ _) (levels (update_cluster levelId score c))
  = map (fun l => completed l || (level_id l === levelId)%js) (levels c).
Proof.
  unfold update_cluster; cbn [levels]. rewrite map_map. apply map_ext.
  intros l. destruct (level_id l === levelId)%js;
    cbn [complete_level completed].
  - now rewrite orb_true_r.
  - now rewrite orb_false_r.
Qed.

Lemma completed_count ls :
  List.length (filter (@completed _ _) ls)
  = count_occ bool_dec (map (@completed _ _) ls) true.
Proof.
  induction ls as [| l ls IH]; [reflexivity | ].
  cbn [filter map count_occ].
  destruct (completed l); cbn; [now rewrite IH | exact IH].
Qed.

(** The progress depends on the completion flags only, and not on their
    order. *)
Lemma cluster_progress_flags ls ls' :
  Permutation (map (@completed _ _) ls) (map (@completed _ _) ls') ->
  cluster_progress ls = cluster_progress ls'.
Proof.
  intros Hperm. unfold cluster_progress, array_length.
  rewrite !completed_count.
  replace (List.length ls') with (List.length ls).
  - rewrite (Permutation_count_occ bool_dec) in Hperm.
    now rewrite (Hperm true).
  - rewrite <- (length_map (@completed _ _) ls),
            <- (length_map (@completed _ _) ls').
    now apply Permutation_length.
Qed.

Lemma cluster_progress_order ls ls' :
  Permutation ls ls' -> cluster_progress ls = cluster_progress ls'.
Proof.
  intros Hperm. apply cluster_progress_flags. now apply Permutation_map.
Qed.

(** Updating a cluster twice with the same arguments gives the progress of
    updating it once. *)
Lemma update_cluster_progress_again (levelId score : number) c :
  progress (update_cluster levelId score (update_cluster levelId score c))
  = progress (update_cluster levelId score c).
Proof.
  change (cluster_progress
            (levels (update_cluster levelId score (update_cluster levelId score c)))
          = cluster_progress (levels (update_cluster levelId score c))).
  apply cluster_progress_flags. apply Permutation_refl'.
  unfold update_cluster; cbn [levels].
  induction (levels c) as [| l ls IH]; cbn [map]; [reflexivity | ].
  f_equal; [ | exact IH].
  destruct (level_id l === levelId)%js eqn:E.
  - cbn [complete_level level_id completed].
    now destruct (level_id l === levelId)%js.
  - now rewrite E.
Qed.

(** C5, amended.  [markLevelCompleted] marks the level addressed as
    completed whatever the score: after the call a level is completed when
    it was completed before or its id is [levelId].  The threshold of 70
    decides one thing, whether [handleSubmitSolution] navigates to the
    results page. *)
Theorem markLevelCompleted_ignores_score
    (st : GameState (number := number) Challenge) (levelId attemptScore : number) :
  map (fun c => map (@completed _ _) (levels c))
      (levelClusters (markLevelCompleted st levelId attemptScore))
  = map (fun c => map (fun l => completed l || (level_id l === levelId)%js)
                      (levels c))
        (levelClusters st) /\
  option_map (@completed _ _) (currentLevel (markLevelCompleted st levelId attemptScore))
  = option_map (fun l => completed l || (level_id l === levelId)%js)
               (currentLevel st) /\
  (forall (Number_of : string -> number) (random : number)
          (route : option string) (query : string) (isSubmitting : bool)
          (effect : SubmitEffect),
      handleSubmitSolution Number_of random route query isSubmitting
      = Some effect ->
      (navigate effect <> None <->
       js_lit 70 <j= score (submissionResult effect))).
Proof.
  split; [ | split].
  - assert (Hcl : levelClusters (markLevelCompleted st levelId attemptScore)
                  = map (update_cluster levelId attemptScore) (levelClusters st)).
    { unfold markLevelCompleted, setCurrentLevel, setLevelClusters.
      cbn [currentLevel].
      destruct (currentLevel st) as [l | ]; [ | reflexivity].
      now destruct (level_id l === levelId)%js. }
    rewrite Hcl, map_map. apply map_ext. intros c.
    apply update_cluster_completed.
  - unfold markLevelCompleted, setCurrentLevel, setLevelClusters.
    cbn [currentLevel].
    destruct (currentLevel st) as [l | ]; [ | reflexivity].
    cbn [option_map].
    destruct (level_id l === levelId)%js;
      cbn [currentLevel option_map complete_level completed];
      destruct (completed l); reflexivity.
  - intros Number_of random route query isSubmitting effect.
    unfold handleSubmitSolution.
    destruct route as [levelId' | ]; [ | discriminate].
    destruct (negb (nonempty levelId') || negb (nonempty (trim query))
              || isSubmitting); [discriminate | ].
    intros Heq. injection Heq as <-.
    cbn [navigate submissionResult score submitSolution].
    destruct (Math_floor (random * js_lit 40) + js_lit 60 >=? js_lit 70)%js;
      split; congruence.
Qed.

End Completion.

(** C5, as stated, fails: an attempt scored 0 completes the level. *)
Lemma low_score_completes_level :
  exists (st : GameState unit) (levelId score : float),
    score <j js_lit 70 /\
    map (fun c => map (@completed _ _) (levels c)) (levelClusters st)
    = [[false]] /\
    map (fun c => map (@completed _ _) (levels c))
        (levelClusters (markLevelCompleted st levelId score))
    = [[true]].
Proof.
  exists (state_of_cluster (sample_cluster 0 1)), 1%float, 0%float.
  repeat split; vm_compute; reflexivity.
Qed.

(** Rounding a percentage in exact arithmetic is an integer division. *)
Lemma round_percent (c n : Z) :
  (0 < n)%Z ->
  Qfloor (inject_Z c / inject_Z n * inject_Z 100 + (1 # 2))
  = round_div (100 * c) n.
Proof.
  intros Hn. unfold round_div. rewrite Zdiv_Qdiv.
  apply Qfloor_comp.
  assert (Hn' : ~ inject_Z n == 0).
  { intros Heq. apply (proj1 (inject_Z_injective n 0)) in Heq. lia. }
  rewrite !inject_Z_plus, !inject_Z_mult. lits. field. exact Hn'.
Qed.

(** In exact arithmetic the progress of a cluster with at least one level
    is round(100 * completed / total). *)
Lemma cluster_progress_exact
    (Challenge : Type) (ls : list (Level (number := xnum) Challenge)) :
  ls <> [] ->
  cluster_progress ls
  =j= js_lit (round_div (100 * Z.of_nat (List.length (filter (@completed _ _) ls)))
                        (Z.of_nat (List.length ls))).
Proof.
  intros Hne. unfold cluster_progress, array_length.
  assert (Hn : (0 < Z.of_nat (List.length ls))%Z)
    by (destruct ls; [contradiction | cbn [List.length]; lia]).
  set (n := Z.of_nat (List.length ls)) in *.
  assert (Hc : (0 <= Z.of_nat (List.length (filter (@completed _ _) ls)))%Z)
    by lia.
  set (c := Z.of_nat (List.length (filter (@completed _ _) ls))) in *.
  xsimpl.
  destruct (Qltb_spec (inject_Z 0) (inject_Z c)) as [Hpos | Hzero].
  - destruct (Qeq_bool_spec (inject_Z n) 0) as [Heq | _].
    + apply (proj1 (inject_Z_injective n 0)) in Heq. lia.
    + xsimpl. rewrite round_percent by assumption.
      apply Qeq_bool_iff. reflexivity.
  - rewrite <- Zlt_Qlt in Hzero. assert (Hc0 : c = 0%Z) by lia.
    replace (round_div (100 * c) n) with 0%Z; [reflexivity | ].
    rewrite Hc0. unfold round_div. symmetry. apply Z.div_small. lia.
Qed.

(** In binary64 the progress agrees with round(100 * completed / total) on
    every cluster of up to 39 levels. *)
Lemma cluster_progress_binary64_upto_39 :
  forallb (fun total : nat =>
    forallb (fun done : nat =>
      PrimFloat.eqb
        (cluster_progress (levels (sample_cluster (number := float) done total)))
        (float_of_Z (round_div (100 * Z.of_nat done) (Z.of_nat total))))
      (seq 0 (S total)))
    (seq 1 39) = true.
Proof. vm_compute. reflexivity. Qed.

(** C9 fails in binary64 on a cluster of 40 levels.  With levels 1 to 22
    completed, marking level 23 leaves 23 of 40 completed.  The quotient
    23 / 40 is rounded below 0.575 and its product with 100 below 57.5,
    which [Math.round] takes to 57, where round(100 * 23 / 40) is 58 (and
    exact arithmetic gives 58). *)
Theorem cluster_progress_binary64_23_of_40 :
  List.length (filter (@completed _ _)
    (levels (update_cluster 23%float 100%float (sample_cluster 22 40)))) = 23%nat /\
  List.length (levels (update_cluster 23%float 100%float (sample_cluster 22 40)))
  = 40%nat /\
  (23 / 40 * 100 <? 57.5)%float = true /\
  progress (update_cluster 23%float 100%float (sample_cluster 22 40)) = 57%float /\
  map (@progress _ _)
      (levelClusters (markLevelCompleted (state_of_cluster (sample_cluster 22 40))
                                         23%float 100%float)) = [57%float] /\
  round_div (100 * 23) 40 = 58%Z /\
  progress (update_cluster (Fin 23) (Fin 100) (sample_cluster 22 40)) =j= js_lit 58.
Proof. repeat split; vm_compute; reflexivity. Qed.

(* ================================================================= *)
(** ** Leaderboard: [loadLeaderboardData] *)

Section SortFacts.

Context {number : Type} `{JSNumber number}.
Variable A : Type.
Variable compare : A -> A -> number.

Lemma sort_insert_perm (x : A) (l : list A) :
  Permutation (sort_insert compare x l) (x :: l).
Proof.
  induction l as [| y l IH]; cbn [sort_insert]; [reflexivity | ].
  destruct (compare x y >? js_lit 0)%js; [ | reflexivity].
  rewrite IH. apply perm_swap.
Qed.

Lemma sort_perm (l : list A) : Permutation (sort compare l) l.
Proof.
  induction l as [| x l IH]; cbn [sort fold_right]; [reflexivity | ].
  fold (sort compare l). rewrite sort_insert_perm. now apply perm_skip.
Qed.

Lemma filter_twice (f g : A -> bool) (l : list A) :
  filter g (filter f l) = filter (fun x => f x && g x) l.
Proof.
  induction l as [| x l IH]; [reflexivity | ].
  cbn [filter]. destruct (f x); cbn [filter andb]; now rewrite IH.
Qed.

Lemma filter_all (f : A -> bool) (l : list A) :
  (forall x, f x = true) -> filter f l = l.
Proof.
  intros Hf. induction l as [| x l IH]; [reflexivity | ].
  cbn [filter]. now rewrite Hf, IH.
Qed.

End SortFacts.

(** In global mode the entries are filtered, then sorted by rank. *)
Lemma filter_and_sort_global
    {number : Type} `{JSNumber number}
    (region searchQuery : string) (data : list LeaderboardEntry) :
  filter_and_sort global region searchQuery data
  = sort by_rank (filter (passes_filters region searchQuery) data).
Proof.
  unfold filter_and_sort, passes_filters. cbn [is_global]. f_equal.
  destruct (String.eqb region "all"), (nonempty searchQuery);
    cbn [negb andb orb].
  - apply filter_ext. intros e. reflexivity.
  - symmetry. now apply filter_all.
  - rewrite filter_twice. apply filter_ext. intros e. reflexivity.
  - apply filter_ext. intros e. now rewrite andb_true_r.
Qed.

(** The comparator orders entries by rank. *)
Lemma by_rank_order (a b : LeaderboardEntry (number := xnum)) :
  ranked a -> ranked b ->
  if (by_rank a b >? js_lit 0)%js then rank_le b a else rank_le a b.
Proof.
  unfold ranked, rank_le, by_rank.
  destruct (rank a) as [x | | |], (rank b) as [y | | |];
    intros; try discriminate; xauto; try reflexivity.
  all: apply Qle_bool_iff; lra.
Qed.

Lemma sort_insert_sorted
    (x : LeaderboardEntry (number := xnum)) (l : list LeaderboardEntry) :
  ranked x -> Forall ranked l -> Sorted rank_le l ->
  Sorted rank_le (sort_insert by_rank x l).
Proof.
  intros Hx Hl Hs. induction l as [| y l IH]; cbn [sort_insert].
  - repeat constructor.
  - inversion Hl as [| ? ? Hy Hl']; subst.
    inversion Hs as [| ? ? Hs' Hhd]; subst.
    pose proof (by_rank_order Hx Hy) as Hord.
    destruct (by_rank x y >? js_lit 0)%js.
    + constructor; [now apply IH | ].
      destruct l as [| z l]; cbn [sort_insert].
      * now constructor.
      * destruct (by_rank x z >? js_lit 0)%js; constructor; [ | exact Hord].
        now inversion Hhd.
    + constructor; [exact Hs | now constructor].
Qed.

Lemma sort_sorted (l : list (LeaderboardEntry (number := xnum))) :
  Forall ranked l -> Sorted rank_le (sort by_rank l).
Proof.
  induction l as [| x l IH]; intros Hl; cbn [sort fold_right]; [constructor | ].
  fold (sort by_rank l). inversion Hl; subst.
  apply sort_insert_sorted; [assumption | | now apply IH].
  rewrite Forall_forall in *. intros e He.
  apply (Permutation_in e (sort_perm by_rank l)) in He. auto.
Qed.

(** The rank drawn for the current player is a number. *)
Lemma currentPlayerEntry_ranked (random : xnum) (p : Player) :
  js_lit 0 <j= random -> random <j js_lit 1 ->
  ranked (currentPlayerEntry random p).
Proof.
  unfold ranked, currentPlayerEntry; cbn [rank].
  destruct random as [r | | |]; intros; try discriminate.
  xsimpl. apply Qeq_bool_iff. reflexivity.
Qed.

(** C4, as stated, fails: the ranks shown are the stored ones.  The 20
    mock entries filtered to region Europe and names containing "a" leave
    5 entries, ranked 2, 5, 11, 14 and 20; filtered to region Asia, with
    the player loaded, they leave 6 entries ranked 3, 7, 10, 13, 16, 19. *)
Lemma filtered_ranks_are_stored_ranks :
  List.length (mockLeaderboard (number := float)) = 20%nat /\
  map (@rank _)
      (fst (loadLeaderboardData mockLeaderboard 0.5%float None global "Europe" "a"))
  = [2; 5; 11; 14; 20]%float /\
  map (@rank _)
      (fst (loadLeaderboardData mockLeaderboard 0.5%float (Some mockPlayer)
                                global "Asia" ""))
  = [3; 7; 10; 13; 16; 19]%float.
Proof. repeat split; vm_compute; reflexivity. Qed.

(** The friends and the regional leaderboards are fixed lists: the region
    and the name query do not filter them. *)
Example other_leaderboards_ignore_filters :
  map (@rank _)
      (fst (loadLeaderboardData mockLeaderboard 0.5%float (Some mockPlayer)
                                friends "Asia" "wizard"))
  = [1; 2; 3; 4; 5]%float /\
  map (@rank _)
      (fst (loadLeaderboardData mockLeaderboard 0.5%float (Some mockPlayer)
                                regional "Asia" "wizard"))
  = [2; 5; 8; 11; 14; 17; 20]%float.
Proof. split; vm_compute; reflexivity. Qed.

(** C4, amended.  For every entry set with numeric ranks and every filter,
    the global leaderboard lists exactly the entries that pass the filters
    (the region, unless it is "all", and the name query, if any, both
    required), each as it is stored, rank included, in ascending order of
    the stored ranks. *)
Theorem leaderboard_keeps_stored_ranks
    (mock : list LeaderboardEntry) (random : xnum) (player : option Player)
    (region searchQuery : string) :
  Forall ranked mock ->
  js_lit 0 <j= random -> random <j js_lit 1 ->
  Permutation
    (fst (loadLeaderboardData mock random player global region searchQuery))
    (filter (passes_filters region searchQuery)
            (global_entries mock random player)) /\
  Sorted rank_le
    (fst (loadLeaderboardData mock random player global region searchQuery)) /\
  (forall e : LeaderboardEntry,
      In e (fst (loadLeaderboardData mock random player global region searchQuery)) ->
      In e (global_entries mock random player)).
Proof.
  intros Hmock H0 H1.
  assert (Hdata : fst (loadLeaderboardData mock random player global region
                                           searchQuery)
                  = sort by_rank (filter (passes_filters region searchQuery)
                                         (global_entries mock random player))).
  { unfold loadLeaderboardData, global_entries. cbn [fst is_global].
    rewrite filter_and_sort_global. now destruct player. }
  rewrite Hdata.
  assert (Hperm := sort_perm by_rank
            (filter (passes_filters region searchQuery)
                    (global_entries mock random player))).
  split; [exact Hperm | split].
  - apply sort_sorted. apply Forall_forall. intros e He.
    apply filter_In in He. destruct He as [He _].
    unfold global_entries in He. destruct player as [p | ].
    + apply in_app_or in He. destruct He as [He | [<- | []]].
      * rewrite Forall_forall in Hmock. now apply Hmock.
      * now apply currentPlayerEntry_ranked.
    + rewrite Forall_forall in Hmock. now apply Hmock.
  - intros e He. apply (Permutation_in e Hperm) in He.
    apply filter_In in He. apply He.
Qed.

Lemma leaderboard_keeps_stored_ranks_witness :
  (Forall ranked (mockLeaderboard (number := xnum)) /\
   js_lit 0 <j= Fin 0.5 /\ Fin 0.5 <j js_lit 1) /\
  Permutation
    (fst (loadLeaderboardData mockLeaderboard (Fin 0.5) (Some mockPlayer) global
                              "Asia" ""))
    (filter (passes_filters "Asia" "")
            (global_entries mockLeaderboard (Fin 0.5) (Some mockPlayer))) /\
  Sorted rank_le
    (fst (loadLeaderboardData mockLeaderboard (Fin 0.5) (Some mockPlayer) global
                              "Asia" "")) /\
  (forall e : LeaderboardEntry,
      In e (fst (loadLeaderboardData mockLeaderboard (Fin 0.5) (Some mockPlayer)
                                     global "Asia" "")) ->
      In e (global_entries mockLeaderboard (Fin 0.5) (Some mockPlayer))).
Proof.
  assert (Hmock : Forall ranked (mockLeaderboard (number := xnum)))
    by (repeat constructor).
  split; [split; [exact Hmock | split; reflexivity] | ].
  apply leaderboard_keeps_stored_ranks; [exact Hmock | reflexivity | reflexivity].
Defined.

(* ================================================================= *)
(** * Further properties of the code *)

(** Comparisons of integer literals in exact arithmetic. *)
Lemma Qle_bool_inject (a b : Z) : Qle_bool (inject_Z a) (inject_Z b) = (a <=? b)%Z.
Proof. unfold Qle_bool, inject_Z. cbn [Qnum Qden]. now rewrite !Z.mul_1_r. Qed.

Lemma Qltb_inject (a b : Z) : Qltb (inject_Z a) (inject_Z b) = (a <? b)%Z.
Proof.
  unfold Qltb, Qcompare, inject_Z, Z.ltb. cbn [Qnum Qden]. now rewrite !Z.mul_1_r.
Qed.

Lemma Qeq_bool_inject (a b : Z) : Qeq_bool (inject_Z a) (inject_Z b) = (a =? b)%Z.
Proof. unfold Qeq_bool, inject_Z. cbn [Qnum Qden]. now rewrite !Z.mul_1_r. Qed.

Lemma filter_length_le (A : Type) (f : A -> bool) (l : list A) :
  (List.length (filter f l) <= List.length l)%nat.
Proof.
  induction l as [| x l IH]; cbn [filter List.length]; [lia | ].
  destruct (f x); cbn [List.length]; lia.
Qed.

Lemma filter_all_length (A : Type) (f : A -> bool) (l : list A) :
  forallb f l = true -> List.length (filter f l) = List.length l.
Proof.
  induction l as [| x l IH]; cbn [filter forallb List.length]; [reflexivity | ].
  destruct (f x); cbn [andb List.length]; [intros; f_equal; auto | discriminate].
Qed.

Lemma filter_none_length (A : Type) (f : A -> bool) (l : list A) :
  existsb f l = false -> List.length (filter f l) = 0%nat.
Proof.
  induction l as [| x l IH]; cbn [filter existsb List.length]; [reflexivity | ].
  destruct (f x); cbn [orb]; [discriminate | exact IH].
Qed.


(* ================================================================= *)
(** ** Performance rating: [getPerformanceRating] *)

Section Rating.

Local Open Scope string_scope.
Local Open Scope js_scope.

Lemma one_tenth_exact : one_tenth = Fin (1 # 10).
Proof. reflexivity. Qed.

Lemma one_half_exact : one_half = Fin (1 # 2).
Proof. reflexivity. Qed.

(** X1.  The rating never improves when the query gets slower or scans
    more rows: for execution times [t1 <= t2] and row counts
    [rows1 <= rows2], with the same index flag, the rating of the second
    query is the rating of the first or a worse one. *)
Theorem getPerformanceRating_monotone
    (t1 t2 rows1 rows2 : xnum) (usedIndex : bool) :
  t1 <j= t2 -> rows1 <j= rows2 ->
  (rating_rank (getPerformanceRating t1 usedIndex rows1)
   <= rating_rank (getPerformanceRating t2 usedIndex rows2))%nat.
Proof.
  intros Ht Hrows. unfold getPerformanceRating.
  rewrite one_tenth_exact, one_half_exact.
  destruct usedIndex; cbn [negb andb].
  - destruct t1 as [a | | |], t2 as [b | | |]; try discriminate; xauto;
      cbn; lia.
  - destruct rows1 as [r1 | | |], rows2 as [r2 | | |]; try discriminate;
      destruct t1 as [a | | |], t2 as [b | | |]; try discriminate; xauto;
      cbn; lia.
Qed.

Lemma getPerformanceRating_monotone_witness :
  (Fin 0.05 <j= Fin 0.3 /\ Fin 10 <j= Fin 5000) /\
  (rating_rank (getPerformanceRating (Fin 0.05) false (Fin 10))
   <= rating_rank (getPerformanceRating (Fin 0.3) false (Fin 5000)))%nat.
Proof.
  split; [split; reflexivity | ].
  apply getPerformanceRating_monotone; reflexivity.
Defined.

(** X2.  Using an index never makes the rating worse, and without an index
    a scan of more than 1000 rows is rated "Poor" however fast the query
    was. *)
Theorem getPerformanceRating_index (t rows : xnum) :
  (rating_rank (getPerformanceRating t true rows)
   <= rating_rank (getPerformanceRating t false rows))%nat /\
  (js_lit 1000 <j rows -> getPerformanceRating t false rows = "Poor").
Proof.
  unfold getPerformanceRating. rewrite one_tenth_exact, one_half_exact.
  cbn [negb andb]. split.
  - destruct (rows >? js_lit 1000); destruct t as [a | | |]; xauto; cbn; lia.
  - intros ->. reflexivity.
Qed.

End Rating.

(* ================================================================= *)
(** ** Titles: [getPlayerTitle] and [updatePlayerProgress] *)

Section Titles.

Local Open Scope string_scope.
Local Open Scope js_scope.

(** Filtering the titles and sorting them by descending level, then taking
    the first, is a search of the table from its last entry. *)
Lemma title_ladder (level : xnum) :
  getPlayerTitle level
  = match find (fun entry : string * string => parseInt (fst entry) <=? level)
               (rev PLAYER_TITLES) with
    | Some entry => snd entry
    | None => "SQL Novice"
    end.
Proof.
  unfold getPlayerTitle, PLAYER_TITLES. cbn [rev app find filter fst].
  change (@parseInt xnum _ "1") with (Fin 1).
  change (@parseInt xnum _ "5") with (Fin 5).
  change (@parseInt xnum _ "10") with (Fin 10).
  change (@parseInt xnum _ "15") with (Fin 15).
  change (@parseInt xnum _ "20") with (Fin 20).
  change (@parseInt xnum _ "25") with (Fin 25).
  change (@parseInt xnum _ "30") with (Fin 30).
  change (@parseInt xnum _ "40") with (Fin 40).
  change (@parseInt xnum _ "50") with (Fin 50).
  destruct level as [q | | |]; [ | reflexivity | reflexivity | reflexivity].
  xsimpl.
  destruct (Qle_bool_spec 50 q);
    [ | destruct (Qle_bool_spec 40 q);
    [ | destruct (Qle_bool_spec 30 q);
    [ | destruct (Qle_bool_spec 25 q);
    [ | destruct (Qle_bool_spec 20 q);
    [ | destruct (Qle_bool_spec 15 q);
    [ | destruct (Qle_bool_spec 10 q);
    [ | destruct (Qle_bool_spec 5 q);
    [ | destruct (Qle_bool_spec 1 q)]]]]]]]].
  all: repeat match goal with
       | |- context [Qle_bool ?a ?x] =>
           first [ replace (Qle_bool a x) with true
                     by (symmetry; apply Qle_bool_iff; lra)
                 | replace (Qle_bool a x) with false
                     by (symmetry; destruct (Qle_bool_spec a x);
                         [lra | reflexivity]) ]
       end.
  all: reflexivity.
Qed.

(** Evaluates the titles of levels that are known up to equality of
    rationals. *)
Ltac title_eval :=
  rewrite !title_ladder; unfold PLAYER_TITLES; cbn [rev app find fst snd];
  change (@parseInt xnum _ "1") with (Fin 1);
  change (@parseInt xnum _ "5") with (Fin 5);
  change (@parseInt xnum _ "10") with (Fin 10);
  change (@parseInt xnum _ "15") with (Fin 15);
  change (@parseInt xnum _ "20") with (Fin 20);
  change (@parseInt xnum _ "25") with (Fin 25);
  change (@parseInt xnum _ "30") with (Fin 30);
  change (@parseInt xnum _ "40") with (Fin 40);
  change (@parseInt xnum _ "50") with (Fin 50);
  xsimpl;
  repeat match goal with
  | |- context [Qle_bool ?a ?x] =>
      first [ replace (Qle_bool a x) with true
                by (symmetry; apply Qle_bool_iff; lra)
            | replace (Qle_bool a x) with false
                by (symmetry; destruct (Qle_bool_spec a x); [lra | reflexivity]) ]
  end.

(** X3.  The title of a level is the title of the highest entry of
    [PLAYER_TITLES] whose level is not above it, whatever the level
    (fractions and infinities included); below level 1, and for NaN, it is
    "SQL Novice". *)
Theorem getPlayerTitle_highest (level : xnum) :
  getPlayerTitle level
  = match find (fun entry : string * string => parseInt (fst entry) <=? level)
               (rev PLAYER_TITLES) with
    | Some entry => snd entry
    | None => "SQL Novice"
    end /\
  (level <j js_lit 1 -> getPlayerTitle level = "SQL Novice") /\
  (js_lit 50 <j= level -> getPlayerTitle level = "SQL Legend").
Proof.
  split; [apply title_ladder | ].
  split; intros Hlevel; destruct level as [q | | |]; try discriminate;
    try reflexivity.
  - assert (Hq : q < 1) by (revert Hlevel; xauto).
    title_eval. reflexivity.
  - assert (Hq : 50 <= q) by (revert Hlevel; xauto).
    title_eval. reflexivity.
Qed.

(** X4.  A level-up does not update the title.  When the player reaches a
    level at which [PLAYER_TITLES] gives a new title (5, 10, 15, 20, 25, 30,
    40 or 50) from the level below, with the title of that level,
    [updatePlayerProgress] raises the level and keeps the old title, which
    is no longer the title [getPlayerTitle] gives for the new level. *)
Theorem level_up_keeps_title
    (Challenge : Type) (st : GameState Challenge) (p : Player) (xpEarned : xnum)
    (k : Z) :
  player st = Some p ->
  In k title_levels ->
  player_level p =j= js_lit (k - 1) ->
  title p = getPlayerTitle (player_level p) ->
  xpToNextLevel p <j= xp p + xpEarned ->
  exists p' : Player,
    player (updatePlayerProgress st xpEarned) = Some p' /\
    player_level p' =j= js_lit k /\
    title p' = title p /\
    title p' <> getPlayerTitle (player_level p').
Proof.
  intros Hp Hk Hlevel Htitle Hup.
  unfold updatePlayerProgress. rewrite Hp, Hup.
  eexists. split; [reflexivity | ].
  cbn [player setPlayer player_level title]. rewrite Htitle.
  destruct (player_level p) as [q | | |]; try discriminate.
  xsimpl. apply Qeq_bool_iff in Hlevel.
  unfold title_levels in Hk. cbn [In] in Hk.
  repeat (destruct Hk as [Hk | Hk]); try contradiction; subst k;
    cbn in Hlevel; unfold inject_Z in Hlevel; lits;
    (split; [apply Qeq_bool_iff; rewrite Hlevel; reflexivity | ]);
    (split; [reflexivity | ]);
    title_eval; discriminate.
Qed.

Lemma level_up_keeps_title_witness :
  (player (state_of (player_at (Fin 9) (Fin 900) (Fin 1000)))
   = Some (player_at (Fin 9) (Fin 900) (Fin 1000)) /\
   In 10%Z title_levels /\
   player_level (player_at (Fin 9) (Fin 900) (Fin 1000)) =j= js_lit (10 - 1) /\
   title (player_at (Fin 9) (Fin 900) (Fin 1000))
   = getPlayerTitle (player_level (player_at (Fin 9) (Fin 900) (Fin 1000))) /\
   xpToNextLevel (player_at (Fin 9) (Fin 900) (Fin 1000))
   <j= xp (player_at (Fin 9) (Fin 900) (Fin 1000)) + Fin 150) /\
  exists p' : Player,
    player (updatePlayerProgress
              (state_of (player_at (Fin 9) (Fin 900) (Fin 1000))) (Fin 150))
    = Some p' /\
    player_level p' =j= js_lit 10 /\
    title p' = title (player_at (Fin 9) (Fin 900) (Fin 1000)) /\
    title p' <> getPlayerTitle (player_level p').
Proof.
  split.
  - repeat split. right. now left.
  - apply (@level_up_keeps_title unit
             (state_of (player_at (Fin 9) (Fin 900) (Fin 1000)))
             (player_at (Fin 9) (Fin 900) (Fin 1000)) (Fin 150) 10%Z);
      [reflexivity | right; now left | reflexivity | reflexivity | reflexivity].
Defined.

End Titles.

(* ================================================================= *)
(** ** Progress: [calculateOverallProgress] and [markLevelCompleted] *)

Lemma percent_Fin (x : xnum) : percent x <-> exists q, x = Fin q /\ 0 <= q <= 100.
Proof.
  unfold percent. split.
  - intros [H0 H1]. destruct x as [q | | |]; try discriminate.
    exists q. split; [reflexivity | ]. xauto.
  - intros (q & -> & Hq). xsimpl. lits. split; apply Qle_bool_iff; lra.
Qed.

Lemma round_range (x : Q) (lo hi : Z) :
  inject_Z lo <= x -> x <= inject_Z hi ->
  (lo <= Qfloor (x + (1 # 2)) <= hi)%Z.
Proof.
  intros Hlo Hhi.
  destruct (@floor_range (x + (1 # 2)) lo (hi + 1)) as [H1 H2].
  - lra.
  - rewrite inject_Z_plus. lits. lra.
  - lia.
Qed.

Lemma round_div_bounds (c n : Z) :
  (0 <= c <= n)%Z -> (0 < n)%Z -> (0 <= round_div (100 * c) n <= 100)%Z.
Proof.
  intros Hc Hn. unfold round_div. split.
  - apply Z.div_pos; lia.
  - enough ((2 * (100 * c) + n) / (2 * n) < 101)%Z by lia.
    apply Z.div_lt_upper_bound; lia.
Qed.

Lemma round_div_full (n : Z) : (0 < n)%Z -> round_div (100 * n) n = 100%Z.
Proof.
  intros Hn. unfold round_div. symmetry.
  apply Z.div_unique with (r := n); lia.
Qed.

Section Progress.

Local Open Scope js_scope.

Variable Challenge : Type.
Implicit Types (cs : list (LevelCluster (number := xnum) Challenge)).
Implicit Types (ls : list (Level (number := xnum) Challenge)).

Lemma total_progress cs (acc : Q) :
  Forall (fun c => percent (progress c)) cs ->
  exists t : Q,
    fold_left (fun (sum : xnum) c => sum + progress c) cs (Fin acc) = Fin t /\
    (acc <= t <= acc + 100 * inject_Z (Z.of_nat (List.length cs)))%Q.
Proof.
  revert acc. induction cs as [| c cs IH]; intros acc Hall.
  - exists acc. split; [reflexivity | ]. cbn [List.length Z.of_nat]. lits. lra.
  - inversion Hall as [| ? ? Hc Hcs]; subst.
    apply percent_Fin in Hc. destruct Hc as (q & Hq & Hrange).
    cbn [fold_left]. rewrite Hq. xsimpl.
    destruct (IH (acc + q)%Q Hcs) as (t & Ht & Hbound).
    exists t. split; [exact Ht | ].
    change (List.length (c :: cs)) with (S (List.length cs)).
    rewrite Nat2Z.inj_succ, <- Z.add_1_r, inject_Z_plus. lits. lra.
Qed.

(** The average of percentages, rounded, is a percentage. *)
Lemma overall_progress_range cs :
  Forall (fun c => percent (progress c)) cs ->
  percent (calculateOverallProgress cs).
Proof.
  intros Hall. destruct cs as [| c cs'] eqn:Hcs.
  - split; reflexivity.
  - rewrite <- Hcs in *. unfold calculateOverallProgress.
    assert (Hlen : (0 < Z.of_nat (List.length cs))%Z)
      by (rewrite Hcs; cbn [List.length]; lia).
    replace (match cs with
             | [] => js_lit 0
             | _ :: _ =>
                 Math_round
                   (fold_left (fun (sum : xnum) cluster => sum + progress cluster)
                              cs (js_lit 0) / array_length cs)
             end)
      with (Math_round
              (fold_left (fun (sum : xnum) cluster => sum + progress cluster)
                         cs (js_lit 0) / array_length cs))
      by (rewrite Hcs; reflexivity).
    destruct (total_progress 0 Hall) as (t & Ht & Hbound).
    change (js_lit 0) with (Fin 0) at 1. rewrite Ht. unfold array_length.
    set (n := Z.of_nat (List.length cs)) in *.
    xsimpl.
    destruct (Qeq_bool_spec (inject_Z n) 0) as [Heq | Hne].
    { apply (proj1 (inject_Z_injective n 0)) in Heq. lia. }
    xsimpl. apply percent_Fin. eexists. split; [reflexivity | ].
    assert (Hn : (0 < inject_Z n)%Q)
      by (change 0%Q with (inject_Z 0); now rewrite <- Zlt_Qlt).
    assert (Hq : (0 <= t / inject_Z n <= 100)%Q).
    { split.
      - apply Qle_shift_div_l; [exact Hn | lra].
      - apply Qle_shift_div_r; [exact Hn | lra]. }
    destruct (@round_range (t / inject_Z n) 0 100) as [Hr0 Hr100];
      [lits; lra | lits; lra | ].
    rewrite Zle_Qle in Hr0, Hr100. lits. lra.
Qed.

(** The progress of a cluster is a percentage: 100 when all of its levels
    are completed, 0 when none is. *)
Lemma cluster_progress_range ls :
  percent (cluster_progress ls) /\
  (ls <> [] -> forallb (@completed _ _) ls = true ->
   cluster_progress ls =j= js_lit 100) /\
  (existsb (@completed _ _) ls = false -> cluster_progress ls =j= js_lit 0).
Proof.
  destruct ls as [| l ls'] eqn:Hls.
  - repeat split; try reflexivity. intros Hne; contradiction.
  - rewrite <- Hls. assert (Hne : ls <> []) by (rewrite Hls; discriminate).
    pose proof (cluster_progress_exact Hne) as Hexact.
    pose proof (filter_length_le (@completed _ _) ls) as Hle.
    assert (Hn : (0 < Z.of_nat (List.length ls))%Z)
      by (rewrite Hls; cbn [List.length]; lia).
    destruct (cluster_progress ls) as [q | | |]; try discriminate.
    xsimpl. apply Qeq_bool_iff in Hexact.
    split; [ | split].
    + destruct (@round_div_bounds
                  (Z.of_nat (List.length (filter (@completed _ _) ls)))
                  (Z.of_nat (List.length ls))) as [H0 H100]; [lia | lia | ].
      rewrite Zle_Qle in H0, H100.
      apply percent_Fin. exists q. split; [reflexivity | ]. lits. lra.
    + intros _ Hall. apply Qeq_bool_iff. rewrite Hexact.
      rewrite (filter_all_length _ _ Hall), round_div_full by lia. reflexivity.
    + intros Hnone. apply Qeq_bool_iff. rewrite Hexact.
      rewrite (filter_none_length _ _ Hnone).
      replace (round_div (100 * Z.of_nat 0) (Z.of_nat (List.length ls))) with 0%Z;
        [reflexivity | ].
      unfold round_div. symmetry. apply Z.div_small. lia.
Qed.

(** X5.  The overall progress of clusters whose progress values are
    percentages is a percentage (0 for no cluster at all). *)
Theorem calculateOverallProgress_percent cs :
  Forall (fun c => percent (progress c)) cs ->
  percent (calculateOverallProgress cs).
Proof. apply overall_progress_range. Qed.

(** X6.  The progress that [markLevelCompleted] computes for a cluster is a
    percentage, whatever the levels: 100 when every level of a non-empty
    cluster is completed, 0 when no level is (an empty cluster included,
    where no division takes place). *)
Theorem cluster_progress_percent ls :
  percent (cluster_progress ls) /\
  (ls <> [] -> forallb (@completed _ _) ls = true ->
   cluster_progress ls =j= js_lit 100) /\
  (existsb (@completed _ _) ls = false -> cluster_progress ls =j= js_lit 0).
Proof. apply cluster_progress_range. Qed.

End Progress.

Lemma calculateOverallProgress_percent_witness :
  Forall (fun c => percent (progress c))
         [cluster_of (Challenge := unit) (Fin 40) [];
          cluster_of (Challenge := unit) (Fin 75) []] /\
  percent (calculateOverallProgress
             [cluster_of (Challenge := unit) (Fin 40) [];
              cluster_of (Challenge := unit) (Fin 75) []]).
Proof.
  assert (Hall : Forall (fun c => percent (progress c))
                   [cluster_of (Challenge := unit) (Fin 40) [];
                    cluster_of (Challenge := unit) (Fin 75) []])
    by (repeat constructor).
  split; [exact Hall | ].
  apply calculateOverallProgress_percent. exact Hall.
Defined.

Section Marking.

Context {number : Type} `{JSNumber number}.
Local Open Scope js_scope.

Variable Challenge : Type.
Implicit Types (st : GameState (number := number) Challenge).
Implicit Types (c : LevelCluster (number := number) Challenge).
Implicit Types (l : Level (number := number) Challenge).

Lemma markLevelCompleted_clusters st (levelId attemptScore : number) :
  levelClusters (markLevelCompleted st levelId attemptScore)
  = map (update_cluster levelId attemptScore) (levelClusters st).
Proof.
  unfold markLevelCompleted, setCurrentLevel, setLevelClusters.
  cbn [currentLevel].
  destruct (currentLevel st) as [l | ]; [ | reflexivity].
  now destruct (level_id l === levelId).
Qed.



(** X23.  The progress of an updated cluster does not depend on the order
    of its levels. *)
Theorem update_cluster_progress_permutation (levelId attemptScore : number) c c' :
  Permutation (levels c) (levels c') ->
  progress (update_cluster levelId attemptScore c)
  = progress (update_cluster levelId attemptScore c').
Proof.
  intros Hperm. unfold update_cluster. cbn [progress].
  apply cluster_progress_order. now apply Permutation_map.
Qed.

Lemma update_cluster_flags_again (levelId score1 score2 : number) c :
  map (@completed _ _)
      (levels (update_cluster levelId score2 (update_cluster levelId score1 c)))
  = map (@completed _ _) (levels (update_cluster levelId score1 c)).
Proof.
  rewrite !update_cluster_completed.
  unfold update_cluster. cbn [levels]. rewrite map_map.
  apply map_ext. intros l.
  destruct (level_id l === levelId) eqn:E.
  - cbn [complete_level completed level_id orb]. now rewrite orb_true_r.
  - rewrite E. now rewrite !orb_false_r.
Qed.

(** X24.  Completing the same level again, with whatever score, changes no
    completion flag and no progress value. *)
Theorem markLevelCompleted_again st (levelId score1 score2 : number) :
  map (fun c => (progress c, map (@completed _ _) (levels c)))
      (levelClusters (markLevelCompleted
                        (markLevelCompleted st levelId score1) levelId score2))
  = map (fun c => (progress c, map (@completed _ _) (levels c)))
        (levelClusters (markLevelCompleted st levelId score1)).
Proof.
  rewrite !markLevelCompleted_clusters, !map_map. apply map_ext. intros c.
  f_equal; [ | apply update_cluster_flags_again].
  change (cluster_progress
            (levels (update_cluster levelId score2 (update_cluster levelId score1 c)))
          = cluster_progress (levels (update_cluster levelId score1 c))).
  apply cluster_progress_flags. apply Permutation_refl'.
  apply update_cluster_flags_again.
Qed.

End Marking.

Lemma update_cluster_progress_permutation_witness :
  Permutation
    (levels (cluster_of (Fin 0) [sample_level 1 true; sample_level 2 false]))
    (levels (cluster_of (Fin 50) [sample_level 2 false; sample_level 1 true])) /\
  progress (update_cluster (Fin 7) (Fin 80)
              (cluster_of (Fin 0) [sample_level 1 true; sample_level 2 false]))
  = progress (update_cluster (Fin 7) (Fin 80)
                (cluster_of (Fin 50) [sample_level 2 false; sample_level 1 true])).
Proof.
  assert (Hperm : Permutation
            (levels (cluster_of (Fin 0)
                       [sample_level (number := xnum) 1 true; sample_level 2 false]))
            (levels (cluster_of (Fin 50)
                       [sample_level (number := xnum) 2 false; sample_level 1 true])))
    by apply perm_swap.
  split; [exact Hperm | ].
  apply update_cluster_progress_permutation. exact Hperm.
Defined.

Section MarkingExact.

Local Open Scope js_scope.

Variable Challenge : Type.

(** X7.  After any call of [markLevelCompleted], whatever progress values
    were stored before, the progress of every cluster is a percentage, and
    so is the overall progress computed from them. *)
Theorem overall_progress_after_marking
    (st : GameState (number := xnum) Challenge) (levelId attemptScore : xnum) :
  Forall (fun c => percent (progress c))
         (levelClusters (markLevelCompleted st levelId attemptScore)) /\
  percent (calculateOverallProgress
             (levelClusters (markLevelCompleted st levelId attemptScore))).
Proof.
  assert (Hall : Forall (fun c => percent (progress c))
            (levelClusters (markLevelCompleted st levelId attemptScore))).
  { rewrite markLevelCompleted_clusters. apply Forall_forall. intros c Hc.
    apply in_map_iff in Hc. destruct Hc as (c0 & <- & _).
    apply cluster_progress_range. }
  split; [exact Hall | ]. now apply overall_progress_range.
Qed.




End MarkingExact.


(** The progress of a cluster is computed from two counts. *)
Lemma cluster_progress_counts (number : Type) (Hn : JSNumber number)
    (Challenge : Type) (ls : list (Level (number := number) Challenge)) :
  cluster_progress ls
  = progress_of_counts (List.length (filter (@completed _ _) ls)) (List.length ls).
Proof. reflexivity. Qed.

Lemma progress_of_counts_binary64 :
  forallb (fun total : nat =>
    forallb (fun done : nat =>
      PrimFloat.eqb
        (progress_of_counts done total)
        (float_of_Z (round_div (100 * Z.of_nat done) (Z.of_nat total))))
      (seq 0 (S total)))
    (seq 1 39) = true.
Proof. vm_compute. reflexivity. Qed.

(** X8.  In binary64, for every cluster of 1 to 39 levels, of which any may
    be completed, the progress is the integer round(100 * completed /
    total), rounding half up. *)
Theorem cluster_progress_binary64_small (Challenge : Type)
    (ls : list (Level (number := float) Challenge)) :
  ls <> [] -> (List.length ls <= 39)%nat ->
  cluster_progress ls
  =j= float_of_Z (round_div (100 * Z.of_nat (List.length (filter (@completed _ _) ls)))
                          (Z.of_nat (List.length ls))).
Proof.
  intros Hne Hlen. rewrite cluster_progress_counts.
  pose proof (filter_length_le (@completed _ _) ls) as Hle.
  set (c := List.length (filter (@completed _ _) ls)) in *.
  set (n := List.length ls) in *.
  assert (Hn : (1 <= n)%nat)
    by (subst n; destruct ls; [contradiction | cbn [List.length]; lia]).
  pose proof progress_of_counts_binary64 as Htable.
  rewrite forallb_forall in Htable.
  assert (Hin : In n (seq 1 39)) by (apply in_seq; lia).
  specialize (Htable n Hin). rewrite forallb_forall in Htable.
  assert (Hc : In c (seq 0 (S n))) by (apply in_seq; lia).
  exact (Htable c Hc).
Qed.

Lemma cluster_progress_binary64_small_witness :
  ([sample_level (number := float) 1 true; sample_level 2 true;
    sample_level 3 false] <> [] /\
   (List.length [sample_level (number := float) 1 true; sample_level 2 true;
                 sample_level 3 false] <= 39)%nat) /\
  cluster_progress [sample_level (number := float) 1 true; sample_level 2 true;
                    sample_level 3 false]
  =j= float_of_Z 67.
Proof.
  split; [split; [discriminate | cbn [List.length]; lia] | ].
  apply (@cluster_progress_binary64_small unit
           [sample_level 1 true; sample_level 2 true; sample_level 3 false]);
    [discriminate | cbn [List.length]; lia].
Defined.

(** The table of [progress_of_counts_binary64], entry by entry. *)
Lemma progress_of_counts_small (done total : nat) :
  (1 <= total <= 39)%nat -> (done <= total)%nat ->
  progress_of_counts done total
  =j= float_of_Z (round_div (100 * Z.of_nat done) (Z.of_nat total)).
Proof.
  intros Htotal Hdone.
  pose proof progress_of_counts_binary64 as Htable.
  rewrite forallb_forall in Htable.
  assert (Hin : In total (seq 1 39)) by (apply in_seq; lia).
  specialize (Htable total Hin). rewrite forallb_forall in Htable.
  apply Htable. apply in_seq. lia.
Qed.

(** X25.  After any call of [markLevelCompleted] the stored progress of
    every cluster of up to 39 levels agrees with its levels, whatever was
    stored before: in binary64 it is round(100 * completed / total),
    rounding half up, for a cluster with at least one level, and 0 for a
    cluster without levels. *)
Theorem markLevelCompleted_progress_consistent
    (Challenge : Type) (st : GameState (number := float) Challenge)
    (levelId attemptScore : float) :
  Forall (fun c =>
            (List.length (levels c) <= 39)%nat ->
            progress c
            =j= match levels c with
                | [] => js_lit 0
                | _ =>
                    float_of_Z
                      (round_div
                         (100 * Z.of_nat (List.length
                                            (filter (@completed _ _) (levels c))))
                         (Z.of_nat (List.length (levels c))))
                end)
         (levelClusters (markLevelCompleted st levelId attemptScore)).
Proof.
  rewrite markLevelCompleted_clusters. apply Forall_forall. intros c Hc.
  apply in_map_iff in Hc. destruct Hc as (c0 & <- & _).
  unfold update_cluster. cbn [progress levels].
  set (ls := map _ (levels c0)). intros Hlen.
  destruct ls as [ | l ls'] eqn:Hls; [reflexivity | ].
  rewrite <- Hls in *. rewrite cluster_progress_counts.
  apply progress_of_counts_small.
  - split; [rewrite Hls; cbn [List.length]; lia | exact Hlen].
  - apply filter_length_le.
Qed.

(* ================================================================= *)
(** ** Scoring: monotonicity of [calculateChallengeScore] *)

Section ScoreOrder.

Local Open Scope js_scope.

(** The score after the time penalty: a number from 70 to 100, which does
    not grow with the execution time. *)
Lemma time_penalty_monotone (e1 e2 o : xnum) :
  e1 <j= e2 -> js_lit 0 <j o ->
  exists s1 s2 : Q,
    (if e1 / o >? js_lit 1
     then js_lit 100
          - Math_min (js_lit 30) (Math_round ((e1 / o - js_lit 1) * js_lit 20))
     else js_lit 100) = Fin s1 /\
    (if e2 / o >? js_lit 1
     then js_lit 100
          - Math_min (js_lit 30) (Math_round ((e2 / o - js_lit 1) * js_lit 20))
     else js_lit 100) = Fin s2 /\
    (s2 <= s1)%Q /\ (70 <= s2)%Q /\ (s1 <= 100)%Q.
Proof.
  intros He Ho.
  destruct o as [oq | | |]; try discriminate Ho.
  - assert (Hoq : (0 < oq)%Q) by (revert Ho; xauto).
    destruct e1 as [a | | |], e2 as [b | | |]; try discriminate He.
    1: { assert (Hab : (a <= b)%Q) by (revert He; xauto).
      xsimpl.
      destruct (Qeq_bool_spec oq 0) as [Heq | _]; [lra | ].
      xsimpl.
      assert (Hr : (a / oq <= b / oq)%Q).
      { unfold Qdiv. apply Qmult_le_compat_r; [exact Hab | ].
        apply Qlt_le_weak, Qinv_lt_0_compat, Hoq. }
      revert Hr. generalize (a / oq)%Q (b / oq)%Q. intros r1 r2 Hr.
      assert (Hf : (inject_Z (Qfloor ((r1 - inject_Z 1) * inject_Z 20 + (1 # 2)))
                    <= inject_Z (Qfloor ((r2 - inject_Z 1) * inject_Z 20 + (1 # 2))))%Q).
      { rewrite <- Zle_Qle. apply Qfloor_resp_le. lits. lra. }
      assert (Hf2 : (inject_Z 1 < r2 ->
                     0 <= inject_Z (Qfloor ((r2 - inject_Z 1) * inject_Z 20 + (1 # 2))))%Q).
      { intros H1. apply round_nonneg. lits. lra. }
      assert (Hf1 : (inject_Z 1 < r1 ->
                     0 <= inject_Z (Qfloor ((r1 - inject_Z 1) * inject_Z 20 + (1 # 2))))%Q).
      { intros H1. apply round_nonneg. lits. lra. }
      revert Hf Hf1 Hf2.
      generalize (inject_Z (Qfloor ((r1 - inject_Z 1) * inject_Z 20 + (1 # 2)))).
      generalize (inject_Z (Qfloor ((r2 - inject_Z 1) * inject_Z 20 + (1 # 2)))).
      intros f2 f1 Hf Hf1 Hf2. lits.
      qcases; xsimpl; qcases;
        do 2 eexists; (split; [reflexivity | split; [reflexivity | ]]);
        try specialize (Hf1 ltac:(assumption));
        try specialize (Hf2 ltac:(assumption)); lra. }
    all: xsimpl;
      repeat match goal with
      | |- context [Qeq_bool ?o 0] =>
          destruct (Qeq_bool_spec o 0) as [Heq | _]; [lra | ]
      | |- context [Qltb ?o 0] =>
          destruct (Qltb_spec o 0) as [Hneg | _]; [lra | ]
      end; xsimpl;
      repeat match goal with
      | |- context [(?x / ?o)%Q] =>
          let r := fresh "r" in
          let Hf := fresh "Hf" in
          generalize (x / o)%Q; intros r;
          assert (Hf : (inject_Z 1 < r ->
                        0 <= inject_Z (Qfloor ((r - inject_Z 1) * inject_Z 20 + (1 # 2))))%Q)
            by (intros H1; apply round_nonneg; lits; lra);
          revert Hf;
          generalize (inject_Z (Qfloor ((r - inject_Z 1) * inject_Z 20 + (1 # 2))));
          intros ? Hf
      end;
      lits;
      cbn [Qcompare Qnum Qden Z.compare Z.mul Pos.mul Pos.compare Pos.compare_cont];
      qcases; xsimpl; qcases;
      do 2 eexists; (split; [reflexivity | split; [reflexivity | ]]);
      repeat match goal with
      | H : (_ < _)%Q -> _ |- _ => first [specialize (H ltac:(assumption)) | clear H]
      end; lra.
  - destruct e1 as [a | | |], e2 as [b | | |]; try discriminate He;
      xsimpl; lits; qcases; try lra;
      do 2 eexists; (split; [reflexivity | split; [reflexivity | ]]); lra.
Qed.

(** X17.  The score never grows with the execution time or with the number
    of hints: for [time1 <= time2], a positive optimal time and
    [0 <= hints1 <= hints2], the slower attempt with more hints scores no
    more than the other; and using the index never scores less than not
    using it. *)
Theorem calculateChallengeScore_monotone
    (time1 time2 optimalTime : xnum) (usedIndex indexRequired : bool)
    (hints1 hints2 : xnum) :
  time1 <j= time2 -> js_lit 0 <j optimalTime ->
  js_lit 0 <j= hints1 -> hints1 <j= hints2 ->
  calculateChallengeScore time2 optimalTime usedIndex indexRequired hints2
  <j= calculateChallengeScore time1 optimalTime usedIndex indexRequired hints1 /\
  calculateChallengeScore time1 optimalTime false indexRequired hints1
  <j= calculateChallengeScore time1 optimalTime true indexRequired hints1.
Proof.
  intros Ht Ho Hh1 Hh.
  unfold calculateChallengeScore. cbv zeta.
  destruct (time_penalty_monotone time1 time2 optimalTime Ht Ho)
    as (s1 & s2 & -> & -> & Hs & Hs2 & Hs1).
  destruct hints1 as [h1 | | |], hints2 as [h2 | | |]; try discriminate;
    destruct indexRequired, usedIndex; cbn [andb negb];
    unfold xmax; xsimpl; lits;
    cbn [Qcompare Qnum Qden Z.compare Z.mul Pos.mul Pos.compare Pos.compare_cont];
    xsimpl; qcases; xsimpl; qcases;
    split; first [reflexivity | exfalso; lra].
Qed.

Lemma calculateChallengeScore_monotone_witness :
  (Fin 1 <j= Fin 1.2 /\ js_lit 0 <j Fin 0.8 /\
   js_lit 0 <j= Fin 0 /\ Fin 0 <j= Fin 1) /\
  calculateChallengeScore (Fin 1.2) (Fin 0.8) false true (Fin 1)
  <j= calculateChallengeScore (Fin 1) (Fin 0.8) false true (Fin 0) /\
  calculateChallengeScore (Fin 1) (Fin 0.8) false true (Fin 0)
  <j= calculateChallengeScore (Fin 1) (Fin 0.8) true true (Fin 0).
Proof.
  split; [repeat split | ].
  apply calculateChallengeScore_monotone; reflexivity.
Defined.

End ScoreOrder.

(* ================================================================= *)
(** ** Experience points in binary64 *)

(** X20.  In binary64, for each of the four tiers and every integer score
    from 0 to 100, [calculateXpEarned] returns the integer that exact
    arithmetic gives: round half up of base * score / 500, times 5. *)
Theorem calculateXpEarned_binary64_integers (tier : string) (base s : Z) :
  In (tier, base) tier_base -> (0 <= s <= 100)%Z ->
  calculateXpEarned tier (float_of_Z s)
  =j= float_of_Z (round_div (base * s) 500 * 5).
Proof.
  intros Htier Hs.
  pose proof calculateXpEarned_binary64_integer_scores as Htable.
  rewrite forallb_forall in Htable. specialize (Htable _ Htier).
  rewrite forallb_forall in Htable. apply (Htable s).
  unfold integers_upto. apply in_map_iff. exists (Z.to_nat s). split; [lia | ].
  apply in_seq. lia.
Qed.

Lemma calculateXpEarned_binary64_integers_witness :
  (In ("advanced"%string, 200%Z) tier_base /\ (0 <= 73 <= 100)%Z) /\
  calculateXpEarned "advanced" (float_of_Z 73) =j= float_of_Z 145.
Proof.
  split; [split; [right; right; now left | lia] | ].
  apply (@calculateXpEarned_binary64_integers "advanced" 200 73);
    [right; right; now left | lia].
Defined.

Section UnknownDifficulty.

Context {number : Type} `{JSNumber number}.
Local Open Scope string_scope.

(** X26.  A difficulty that names neither a tier nor a member of
    [Object.prototype] earns what "beginner" earns, for every score and in
    every arithmetic: the lookup misses and the beginner base is used. *)
Theorem calculateXpEarned_unknown_difficulty (difficulty : string) (score : number) :
  own_property baseXp difficulty = None ->
  existsb (String.eqb difficulty) Object_prototype = false ->
  calculateXpEarned difficulty score = calculateXpEarned "beginner" score.
Proof.
  intros Hown Hproto. unfold calculateXpEarned, js_get.
  rewrite Hown, Hproto. unfold value_or. cbn [value_truthy].
  now destruct (value_truthy _).
Qed.

End UnknownDifficulty.

Lemma calculateXpEarned_unknown_difficulty_witness :
  (own_property (number := float) baseXp "legendary" = None /\
   existsb (String.eqb "legendary") Object_prototype = false) /\
  calculateXpEarned "legendary" 60%float = calculateXpEarned "beginner" 60%float.
Proof.
  split; [split; reflexivity | ].
  apply calculateXpEarned_unknown_difficulty; reflexivity.
Defined.

(* ================================================================= *)
(** ** Game service: [getLevelById] and [executeQuery] *)

Section Lookup.

Context {number : Type} `{JSNumber number}.
Local Open Scope js_scope.

Variable Challenge : Type.
Implicit Types (cs : list (LevelCluster (number := number) Challenge)).

(** The loop over the clusters is a search of all levels in order. *)
Lemma getLevelById_find cs (levelId : number) :
  getLevelById cs levelId
  = find (fun l => level_id l === levelId) (flat_map (@levels _ _) cs).
Proof.
  induction cs as [ | c cs IH]; [reflexivity | ].
  cbn [getLevelById flat_map]. rewrite IH.
  induction (levels c) as [ | l ls IHl]; [reflexivity | ].
  cbn [find app]. now destruct (level_id l === levelId).
Qed.

(** X11.  [getLevelById] returns the first level, in the order of the
    clusters and of their levels, whose id is the one asked for, and null
    exactly when no level has that id. *)
Theorem getLevelById_first_match cs (levelId : number) :
  (forall level, getLevelById cs levelId = Some level ->
     exists before after,
       flat_map (@levels _ _) cs = (before ++ level :: after)%list /\
       level_id level =j= levelId /\
       forallb (fun l => negb (level_id l === levelId)) before = true) /\
  (getLevelById cs levelId = None <->
   forallb (fun l => negb (level_id l === levelId))
           (flat_map (@levels _ _) cs) = true).
Proof.
  rewrite getLevelById_find.
  induction (flat_map (@levels _ _) cs) as [ | l ls [IH1 IH2]]; cbn [find forallb].
  - split; [discriminate | tauto].
  - destruct (level_id l === levelId) eqn:E; cbn [negb andb].
    + split.
      * intros level [= <-]. exists [], ls. now repeat split.
      * split; discriminate.
    + split; [ | exact IH2].
      intros level Hfind.
      destruct (IH1 level Hfind) as (before & after & Hl & Hid & Hb).
      exists (l :: before), after. cbn [app forallb]. rewrite Hl, E, Hb.
      now repeat split.
Qed.

End Lookup.

Section Query.

Local Open Scope string_scope.
Local Open Scope js_scope.

Lemma floor_scaled (q : Q) (n : Z) :
  (0 < n)%Z -> (0 <= q)%Q -> (q < 1)%Q ->
  (0 <= Qfloor (q * inject_Z n) <= n - 1)%Z.
Proof.
  intros Hn H0 H1.
  assert (Hpos : (0 < inject_Z n)%Q)
    by (change (inject_Z 0 < inject_Z n)%Q; rewrite <- Zlt_Qlt; exact Hn).
  enough (0 <= Qfloor (q * inject_Z n) < n)%Z by lia.
  apply floor_range; [change (inject_Z 0) with 0%Q | ]; nra.
Qed.

Lemma drawn_Fin (x : xnum) :
  drawn x -> exists q : Q, x = Fin q /\ (0 <= q)%Q /\ (q < 1)%Q.
Proof.
  intros [H0 H1]. destruct x as [q | | |]; try discriminate.
  exists q. split; [reflexivity | ]. revert H0 H1. xauto.
Qed.

Lemma integer_between_floor (lo hi : Z) (q : Q) :
  (lo <= Qfloor q <= hi)%Z -> integer_between lo hi (Fin (inject_Z (Qfloor q))).
Proof.
  intros Hq. unfold integer_between. xsimpl.
  rewrite !Qle_bool_inject, Qfloor_Z, Qeq_bool_inject, Z.eqb_refl.
  repeat split; apply Z.leb_le; lia.
Qed.

(** X12.  [executeQuery] rejects exactly the queries that do not contain
    "select" in any letter case, with no rows and zero counts.  For every
    other query, whatever the draws of [Math.random()], the execution time
    is from 0.45 to 0.95, the row count is an integer from 1 to 100, and the
    data are ten rows with the ids 1 to 10 and the names "Sample Data 1" to
    "Sample Data 10", each with an integer value from 0 to 999: ten rows,
    whatever the row count says.  In exact arithmetic the execution time
    stays below 0.95; in binary64 the largest draws reach the double 0.95,
    and the bounds hold there too, as they do at the draw 0 and on the other
    sample draws. *)
Theorem executeQuery_result :
  (forall (draws : QueryDraws (number := xnum)) (query datasetId : string),
      drawn (time_draw draws) ->
      drawn (rows_draw draws) ->
      (forall i : nat, drawn (value_draw draws i)) ->
      if includes (toLowerCase query) "select"
      then
        error (executeQuery draws query datasetId) = None /\
        js_lit 45 / js_lit 100 <j= executionTime (executeQuery draws query datasetId) /\
        executionTime (executeQuery draws query datasetId) <j= js_lit 95 / js_lit 100 /\
        integer_between 1 100 (rowCount (executeQuery draws query datasetId)) /\
        Forall2 (fun row (i : Z) => row_id row =j= js_lit i)
                (data (executeQuery draws query datasetId))
                [1; 2; 3; 4; 5; 6; 7; 8; 9; 10]%Z /\
        Forall (fun row => integer_between 0 999 (row_value row))
               (data (executeQuery draws query datasetId)) /\
        map (@row_name _) (data (executeQuery draws query datasetId))
        = [ "Sample Data 1"; "Sample Data 2"; "Sample Data 3"; "Sample Data 4";
            "Sample Data 5"; "Sample Data 6"; "Sample Data 7"; "Sample Data 8";
            "Sample Data 9"; "Sample Data 10" ]
      else
        error (executeQuery draws query datasetId) <> None /\
        data (executeQuery draws query datasetId) = [] /\
        executionTime (executeQuery draws query datasetId) = js_lit 0 /\
        rowCount (executeQuery draws query datasetId) = js_lit 0) /\
  forallb (fun r : float =>
    let result := executeQuery (constant_draws r) "SELECT * FROM users" "db1" in
    PrimFloat.leb 0.45 (executionTime result)
    && PrimFloat.leb (executionTime result) 0.95
    && PrimFloat.leb 1 (rowCount result)
    && PrimFloat.leb (rowCount result) 100
    && PrimFloat.eqb (float_floor (rowCount result)) (rowCount result)
    && forallb (fun row =>
                  PrimFloat.leb 0 (row_value row)
                  && PrimFloat.leb (row_value row) 999
                  && PrimFloat.eqb (float_floor (row_value row)) (row_value row))
               (data result))
    (0x1.ffffffffffffep-1%float :: sample_draws) = true /\
  executionTime (executeQuery (constant_draws 0x1.fffffffffffffp-1%float)
                              "SELECT * FROM users" "db1") = 0.95%float.
Proof.
  split; [ | split; vm_compute; reflexivity].
  intros draws query datasetId Htime Hrows Hvalues.
  apply drawn_Fin in Htime. destruct Htime as (t & Ht & Ht0 & Ht1).
  apply drawn_Fin in Hrows. destruct Hrows as (r & Hr & Hr0 & Hr1).
  unfold executeQuery.
  destruct (includes (toLowerCase query) "select"); cbn [negb];
    cbn [error executionTime rowCount data].
  - split; [reflexivity | ]. rewrite Ht, Hr.
    rewrite one_half_exact. xsimpl.
    change (Qeq_bool (inject_Z 100) 0) with false. cbn iota. xsimpl.
    change (inject_Z 45 / inject_Z 100)%Q with (45 # 100)%Q.
    change (inject_Z 95 / inject_Z 100)%Q with (95 # 100)%Q.
    split; [apply Qle_bool_iff; lra | ].
    split; [apply Qle_bool_iff; lra | ].
    split; [ | split; [ | split; [ | reflexivity]]].
    + pose proof (@floor_scaled r 100 ltac:(lia) Hr0 Hr1) as Hfloor.
      rewrite <- inject_Z_plus.
      rewrite <- (Qfloor_Z (Qfloor (r * inject_Z 100) + 1)).
      apply integer_between_floor. rewrite Qfloor_Z. lia.
    + repeat constructor.
    + cbn [map seq].
      repeat (apply Forall_cons;
              [ match goal with
                | |- context [value_draw ?d ?i] =>
                    destruct (drawn_Fin (Hvalues i)) as (v & Hv & Hv0 & Hv1);
                    cbn [row_value]; rewrite Hv; xsimpl;
                    apply integer_between_floor;
                    pose proof (@floor_scaled v 1000 ltac:(lia) Hv0 Hv1); lia
                end | ]).
      apply Forall_nil.
  - repeat split. discriminate.
Qed.

Lemma executeQuery_result_witness :
  (drawn (time_draw (constant_draws (Fin 0.5))) /\
   drawn (rows_draw (constant_draws (Fin 0.5))) /\
   (forall i : nat, drawn (value_draw (constant_draws (Fin 0.5)) i))) /\
  error (executeQuery (constant_draws (Fin 0.5)) "SELECT * FROM users" "db1") = None /\
  js_lit 45 / js_lit 100
  <j= executionTime (executeQuery (constant_draws (Fin 0.5)) "SELECT * FROM users" "db1") /\
  executionTime (executeQuery (constant_draws (Fin 0.5)) "SELECT * FROM users" "db1")
  <j= js_lit 95 / js_lit 100 /\
  integer_between 1 100
    (rowCount (executeQuery (constant_draws (Fin 0.5)) "SELECT * FROM users" "db1")) /\
  Forall2 (fun row (i : Z) => row_id row =j= js_lit i)
          (data (executeQuery (constant_draws (Fin 0.5)) "SELECT * FROM users" "db1"))
          [1; 2; 3; 4; 5; 6; 7; 8; 9; 10]%Z /\
  Forall (fun row => integer_between 0 999 (row_value row))
         (data (executeQuery (constant_draws (Fin 0.5)) "SELECT * FROM users" "db1")) /\
  map (@row_name _)
      (data (executeQuery (constant_draws (Fin 0.5)) "SELECT * FROM users" "db1"))
  = [ "Sample Data 1"; "Sample Data 2"; "Sample Data 3"; "Sample Data 4";
      "Sample Data 5"; "Sample Data 6"; "Sample Data 7"; "Sample Data 8";
      "Sample Data 9"; "Sample Data 10" ].
Proof.
  assert (Hdraw : drawn (Fin 0.5)) by (split; reflexivity).
  split; [split; [exact Hdraw | split; [exact Hdraw | intros i; exact Hdraw]] | ].
  exact (proj1 executeQuery_result (constant_draws (Fin 0.5))
           "SELECT * FROM users" "db1" Hdraw Hdraw (fun _ => Hdraw)).
Defined.

End Query.

(* ================================================================= *)
(** ** Challenge page: hints and the submit guard *)

Section ChallengePageFacts.

Local Open Scope string_scope.
Local Open Scope js_scope.

(** X13.  From 0, [n] hint requests leave [hintsUsed] at [n] or at the
    number of hints of the level, whichever is smaller: the counter never
    passes the number of hints. *)
Theorem hint_requests_capped (n : nat) (hints : list string) :
  @hint_requests xnum _ n (Some hints) (js_lit 0)
  = js_lit (Z.of_nat (Nat.min n (List.length hints))).
Proof.
  assert (Hgen : forall k : nat, (k <= List.length hints)%nat ->
            @hint_requests xnum _ n (Some hints) (js_lit (Z.of_nat k))
            = js_lit (Z.of_nat (Nat.min (k + n) (List.length hints)))).
  { induction n as [ | n IH]; intros k Hk; cbn [hint_requests].
    - do 2 f_equal. lia.
    - unfold handleHintRequest, array_length. xsimpl.
      rewrite Qle_bool_inject.
      destruct (Z.leb_spec (Z.of_nat (List.length hints)) (Z.of_nat k)).
      + rewrite IH by exact Hk. do 2 f_equal. lia.
      + rewrite <- inject_Z_plus.
        replace (Z.of_nat k + 1)%Z with (Z.of_nat (S k)) by lia.
        rewrite IH by lia. do 2 f_equal. lia. }
  apply (Hgen 0%nat). lia.
Qed.

Lemma trimStart_step (s : string) :
  trimStart s = match after_space s with Some r => trimStart r | None => s end.
Proof.
  destruct s as [ | c1 [ | c2 [ | c3 s3]]]; cbn [trimStart after_space];
    try reflexivity.
  - now destruct (is_space c1).
  - destruct (is_space c1); [reflexivity | ]. now destruct (is_space2 c1 c2).
  - destruct (is_space c1); [reflexivity | ].
    destruct (is_space2 c1 c2); [reflexivity | ].
    now destruct (is_space3 c1 c2 c3).
Qed.

Lemma all_spaces_step (s : string) :
  all_spaces s
  = match s with
    | EmptyString => true
    | _ => match after_space s with Some r => all_spaces r | None => false end
    end.
Proof.
  destruct s as [ | c1 [ | c2 [ | c3 s3]]]; cbn [all_spaces after_space];
    try reflexivity.
  - now destruct (is_space c1).
  - destruct (is_space c1); [reflexivity | ]. now destruct (is_space2 c1 c2).
  - destruct (is_space c1); [reflexivity | ].
    destruct (is_space2 c1 c2); [reflexivity | ].
    now destruct (is_space3 c1 c2 c3).
Qed.

Lemma after_space_shorter (s r : string) :
  after_space s = Some r -> (String.length r < String.length s)%nat.
Proof.
  destruct s as [ | c1 [ | c2 [ | c3 s3]]]; cbn [after_space]; try discriminate.
  - destruct (is_space c1); [intros [= <-]; cbn; lia | discriminate].
  - destruct (is_space c1); [intros [= <-]; cbn; lia | ].
    destruct (is_space2 c1 c2); [intros [= <-]; cbn; lia | discriminate].
  - destruct (is_space c1); [intros [= <-]; cbn; lia | ].
    destruct (is_space2 c1 c2); [intros [= <-]; cbn; lia | ].
    destruct (is_space3 c1 c2 c3); [intros [= <-]; cbn; lia | discriminate].
Qed.

Lemma trimStart_spaces (s : string) : all_spaces (trimStart s) = all_spaces s.
Proof.
  induction s as [s IH] using (induction_ltof1 _ String.length).
  rewrite trimStart_step, (all_spaces_step s).
  destruct s as [ | c s']; [reflexivity | ].
  destruct (after_space (String c s')) as [r | ] eqn:Hr.
  - apply IH. exact (@after_space_shorter _ _ Hr).
  - rewrite all_spaces_step, Hr. reflexivity.
Qed.

Lemma trimEnd_nonempty (s : string) : nonempty (trimEnd s) = negb (all_spaces s).
Proof.
  destruct s as [ | c s]; [reflexivity | ].
  cbn [trimEnd]. now destruct (all_spaces (String c s)).
Qed.

(** A query has something left after [trim] when it is not white space
    only. *)
Lemma trim_nonempty (s : string) : nonempty (trim s) = negb (all_spaces s).
Proof. unfold trim. now rewrite trimEnd_nonempty, trimStart_spaces. Qed.

(** [trim] on white space outside ASCII: the no-break space (bytes 194,
    160), the em space U+2003 (226, 128, 131) and the byte order mark (239,
    187, 191) are stripped at both ends and kept inside; a query of one
    no-break space is not submitted. *)
Example trim_unicode_samples :
  let nbsp := String "194"%char (String "160"%char "") in
  let em_space := String "226"%char (String "128"%char (String "131"%char "")) in
  let bom := String "239"%char (String "187"%char (String "191"%char "")) in
  trim (" " ++ nbsp ++ "SELECT" ++ nbsp ++ "1" ++ em_space ++ " " ++ bom)
  = "SELECT" ++ nbsp ++ "1" /\
  trim (nbsp ++ em_space ++ " " ++ bom) = "" /\
  trim (String "195"%char (String "137"%char " ")) = String "195"%char (String "137"%char "") /\
  handleSubmitSolution (fun _ : string => Fin 1) (Fin 0.5) (Some "1") nbsp false
  = None.
Proof. repeat split; vm_compute; reflexivity. Qed.

End ChallengePageFacts.

Section Guard.

Context {number : Type} `{JSNumber number}.
Local Open Scope string_scope.

Variable Number_of : string -> number.

(** X18.  [handleSubmitSolution] submits nothing exactly when the route has
    no level id or an empty one, the query is empty or made of white space
    and line terminators only (every character that [trim] strips, the
    no-break space, the Unicode spaces and the byte order mark included), or
    a submission is in flight. *)
Theorem handleSubmitSolution_guard
    (random : number) (levelId : option string) (query : string)
    (isSubmitting : bool) :
  handleSubmitSolution Number_of random levelId query isSubmitting = None
  <-> (levelId = None \/ levelId = Some "" \/ all_spaces query = true
       \/ isSubmitting = true).
Proof.
  unfold handleSubmitSolution. destruct levelId as [route | ].
  - rewrite trim_nonempty, negb_involutive.
    destruct route as [ | c route]; cbn [nonempty negb orb].
    + split; auto.
    + destruct (all_spaces query), isSubmitting; cbn [orb]; split;
        try discriminate; auto.
      intros [Hf | [Hf | [Hf | Hf]]]; discriminate.
  - split; auto.
Qed.

End Guard.

(* ================================================================= *)
(** ** Leaderboard page: pages, search and the friends list *)

Section Slices.

Local Open Scope js_scope.

Variable A : Type.

Lemma slice_combine (l : list A) (o s e : nat) :
  map snd
      (filter (fun p : nat * A => (s <=? fst p)%nat && (fst p <? e)%nat)
              (combine (seq o (List.length l)) l))
  = firstn (e - Nat.max s o) (skipn (s - o) l).
Proof.
  revert o. induction l as [ | x l IH]; intros o.
  - cbn. now rewrite skipn_nil, firstn_nil.
  - cbn [List.length seq combine filter fst].
    destruct (Nat.leb_spec s o) as [Hs | Hs];
      [destruct (Nat.ltb_spec o e) as [He | He] | ]; cbn [andb map snd].
    + rewrite IH.
      replace (s - o)%nat with 0%nat by lia.
      replace (s - S o)%nat with 0%nat by lia.
      cbn [skipn].
      replace (e - Nat.max s o)%nat with (S (e - Nat.max s (S o))) by lia.
      reflexivity.
    + rewrite IH.
      replace (e - Nat.max s (S o))%nat with 0%nat by lia.
      replace (e - Nat.max s o)%nat with 0%nat by lia.
      reflexivity.
    + rewrite IH.
      replace (s - o)%nat with (S (s - S o)) by lia.
      cbn [skipn].
      replace (Nat.max s (S o)) with (Nat.max s o) by lia.
      reflexivity.
Qed.

(** A natural index is brought into [0, len] by capping it at [len]. *)
Lemma relative_index_nat (n k : nat) :
  @relative_index xnum _ (js_lit (Z.of_nat n)) (js_lit (Z.of_nat k))
  = js_lit (Z.of_nat (Nat.min k n)).
Proof.
  unfold relative_index, ToIntegerOrInfinity. xsimpl.
  rewrite Qeq_bool_inject, Z.eqb_refl, Qltb_inject.
  replace (Z.of_nat k <? 0)%Z with false by (symmetry; apply Z.ltb_ge; lia).
  xsimpl. rewrite Qfloor_Z, Qltb_inject.
  replace (Z.of_nat k <? 0)%Z with false by (symmetry; apply Z.ltb_ge; lia).
  unfold xmin. cbn [xisnan orb]. xsimpl. rewrite Qltb_inject.
  destruct (Z.ltb_spec (Z.of_nat n) (Z.of_nat k)); do 3 f_equal; lia.
Qed.

(** [slice] between two indices that are natural numbers. *)
Lemma Array_slice_nat (l : list A) (s e : nat) :
  @Array_slice xnum _ A l (js_lit (Z.of_nat s)) (js_lit (Z.of_nat e))
  = firstn (e - s) (skipn s l).
Proof.
  unfold Array_slice, array_length. rewrite !relative_index_nat.
  set (n := List.length l).
  rewrite (filter_ext _ (fun p : nat * A =>
             (Nat.min s n <=? fst p)%nat && (fst p <? Nat.min e n)%nat)).
  - unfold n at 3. rewrite slice_combine, Nat.max_0_r, Nat.sub_0_r.
    destruct (Nat.le_gt_cases s n) as [Hs | Hs].
    + rewrite (Nat.min_l s n) by exact Hs.
      destruct (Nat.le_gt_cases e n) as [He | He].
      * now rewrite (Nat.min_l e n) by exact He.
      * rewrite (Nat.min_r e n) by lia.
        rewrite !firstn_all2; try reflexivity; rewrite length_skipn; fold n; lia.
    + rewrite (Nat.min_r s n) by lia.
      rewrite !skipn_all2 by (fold n; lia). now rewrite !firstn_nil.
  - intros [i x]. cbn [fst]. xsimpl. rewrite Qle_bool_inject, Qltb_inject.
    f_equal.
    + destruct (Z.leb_spec (Z.of_nat (Nat.min s n)) (Z.of_nat i)),
               (Nat.leb_spec (Nat.min s n) i); try reflexivity; lia.
    + destruct (Z.ltb_spec (Z.of_nat i) (Z.of_nat (Nat.min e n))),
               (Nat.ltb_spec i (Nat.min e n)); try reflexivity; lia.
Qed.

Lemma chunks_concat (n : nat) (l : list A) :
  (List.length l <= 10 * n)%nat ->
  List.concat (map (fun k => firstn 10 (skipn (10 * k) l)) (seq 0 n)) = l.
Proof.
  revert l. induction n as [ | n IH]; intros l Hl.
  - destruct l; [reflexivity | cbn in Hl; lia].
  - cbn [seq map List.concat]. rewrite <- seq_shift, map_map.
    rewrite (map_ext _ (fun k => firstn 10 (skipn (10 * k) (skipn 10 l)))).
    + rewrite IH by (rewrite length_skipn; lia).
      change (10 * 0)%nat with 0%nat. cbn [skipn]. apply firstn_skipn.
    + intros k. rewrite skipn_skipn. do 2 f_equal. lia.
Qed.

End Slices.

Section PagesFacts.

Local Open Scope string_scope.
Local Open Scope js_scope.

Implicit Types data : list (LeaderboardEntry (number := xnum)).

(** Page [k + 1] holds the entries at the positions [10 k .. 10 k + 9]. *)
Lemma page_slice data (k : nat) :
  getCurrentPageData data (js_lit (Z.of_nat (S k)))
  = firstn 10 (skipn (10 * k) data).
Proof.
  unfold getCurrentPageData.
  replace ((js_lit (Z.of_nat (S k)) - js_lit 1) * js_lit 10)
    with (@js_lit xnum _ (Z.of_nat (10 * k))).
  2:{ xsimpl. unfold Qminus.
      rewrite <- inject_Z_opp, <- inject_Z_plus, <- inject_Z_mult.
      f_equal. f_equal. lia. }
  replace (js_lit (Z.of_nat (10 * k)) + js_lit 10)
    with (@js_lit xnum _ (Z.of_nat (10 * k + 10))).
  2:{ xsimpl. rewrite <- inject_Z_plus. f_equal. f_equal. lia. }
  rewrite Array_slice_nat. f_equal. lia.
Qed.

Lemma total_pages_nat (len : nat) :
  @Math_ceil xnum _ (js_lit (Z.of_nat len) / js_lit 10)
  = js_lit (Z.of_nat ((len + 9) / 10)).
Proof.
  xsimpl. change (Qeq_bool (inject_Z 10) 0) with false. cbn iota. xsimpl.
  do 2 f_equal.
  unfold Qceiling, Qfloor, Qopp, Qdiv, Qmult, Qinv, inject_Z.
  cbn [Qnum Qden Z.mul Pos.mul].
  rewrite Z.mul_1_r. rewrite Nat2Z.inj_div, Nat2Z.inj_add.
  change (Z.of_nat 9) with 9%Z. change (Z.of_nat 10) with 10%Z.
  set (n := Z.of_nat len).
  assert (Hn : (0 <= n)%Z) by (unfold n; lia).
  pose proof (Z.div_mod (- n) 10 ltac:(lia)) as H1.
  pose proof (Z.mod_pos_bound (- n) 10 ltac:(lia)) as H2.
  apply Z.div_unique with (r := (9 - (- n) mod 10)%Z); lia.
Qed.

Lemma pages_of_data data :
  let n := ((List.length data + 9) / 10)%nat in
  @Math_ceil xnum _ (array_length data / js_lit 10) = js_lit (Z.of_nat n) /\
  List.concat (map (fun p => getCurrentPageData data (js_lit (Z.of_nat p)))
                   (seq 1 n))
  = data /\
  (forall p, (1 <= p <= n)%nat ->
     getCurrentPageData data (js_lit (Z.of_nat p)) <> [] /\
     (List.length (getCurrentPageData data (js_lit (Z.of_nat p))) <= 10)%nat) /\
  (forall p, (n < p)%nat -> getCurrentPageData data (js_lit (Z.of_nat p)) = []) /\
  pagination_shown data (Math_ceil (array_length data / js_lit 10))
  = (10 <? List.length data)%nat.
Proof.
  intros n.
  assert (Hn : (List.length data <= 10 * n)%nat).
  { unfold n. pose proof (Nat.div_mod (List.length data + 9) 10 ltac:(lia)).
    pose proof (Nat.mod_upper_bound (List.length data + 9) 10 ltac:(lia)). lia. }
  assert (Hn' : (0 < n -> 10 * (n - 1) < List.length data)%nat).
  { unfold n. pose proof (Nat.div_mod (List.length data + 9) 10 ltac:(lia)).
    pose proof (Nat.mod_upper_bound (List.length data + 9) 10 ltac:(lia)). lia. }
  split; [unfold array_length, n; apply total_pages_nat | ].
  split; [ | split; [ | split]].
  - rewrite <- seq_shift, map_map.
    rewrite (map_ext _ (fun k => firstn 10 (skipn (10 * k) data))).
    + now apply chunks_concat.
    + intros k. apply page_slice.
  - intros [ | k] Hp; [lia | ]. rewrite page_slice. split.
    + intros Hnil. apply (f_equal (@List.length _)) in Hnil.
      rewrite length_firstn, length_skipn in Hnil. cbn [List.length] in Hnil. lia.
    + rewrite length_firstn. lia.
  - intros [ | k] Hp; [lia | ]. rewrite page_slice.
    rewrite skipn_all2 by lia. apply firstn_nil.
  - unfold pagination_shown, array_length. rewrite total_pages_nat. fold n.
    xsimpl. rewrite !Qltb_inject.
    destruct (Z.ltb_spec 0 (Z.of_nat (List.length data))),
             (Z.ltb_spec 1 (Z.of_nat n)),
             (Nat.ltb_spec 10 (List.length data)); cbn [andb];
      try reflexivity; lia.
Qed.

(** X14.  Page [k + 1] of the leaderboard shows the entries at the
    positions [10 k] to [10 k + 9] of the loaded data, in their order (fewer
    when the data end before), and page 0 shows nothing. *)
Theorem getCurrentPageData_page data (k : nat) :
  getCurrentPageData data (js_lit (Z.of_nat (S k)))
  = firstn 10 (skipn (10 * k) data) /\
  getCurrentPageData data (js_lit 0) = [].
Proof.
  split; [apply page_slice | ].
  unfold getCurrentPageData, Array_slice.
  replace (relative_index (array_length data)
             ((js_lit 0 - js_lit 1) * js_lit 10 + js_lit 10))
    with (@js_lit xnum _ 0).
  - induction (combine (seq 0 (List.length data)) data) as [ | [i x] l IH];
      [reflexivity | ].
    cbn [filter fst].
    replace (js_lit (Z.of_nat i) <? js_lit 0) with false.
    + rewrite andb_false_r. exact IH.
    + xsimpl. rewrite Qltb_inject. symmetry. apply Z.ltb_ge. lia.
  - unfold relative_index, ToIntegerOrInfinity, array_length. xsimpl.
    set (c := ((inject_Z 0 - inject_Z 1) * inject_Z 10 + inject_Z 10)%Q).
    change (Qeq_bool c c) with true. change (Qltb c (inject_Z 0)) with false.
    change (Qfloor c) with 0%Z. cbn iota. xsimpl.
    change (Qltb (inject_Z 0) (inject_Z 0)) with false. cbn iota.
    unfold xmin. cbn [xisnan orb]. xsimpl. rewrite Qltb_inject.
    destruct (Z.ltb_spec (Z.of_nat (List.length data)) 0); [lia | reflexivity].
Qed.

(** X15.  The pages of the loaded leaderboard, from 1 to [totalPages],
    cover the loaded entries: [totalPages] is the number of entries divided
    by 10, rounded up; the pages 1 to [totalPages] in a row are the loaded
    entries, each once and in their order; each of them shows from 1 to 10
    entries; every later page is empty; and the pagination bar is rendered
    exactly when more than 10 entries are loaded. *)
Theorem leaderboard_pages
    (mock : list (LeaderboardEntry (number := xnum))) (random : xnum)
    (player : option (@Player xnum)) (leaderboardType : LeaderboardType)
    (region searchQuery : string) :
  let loaded :=
    loadLeaderboardData mock random player leaderboardType region searchQuery in
  let n := ((List.length (fst loaded) + 9) / 10)%nat in
  snd loaded = js_lit (Z.of_nat n) /\
  List.concat (map (fun p => getCurrentPageData (fst loaded) (js_lit (Z.of_nat p)))
                   (seq 1 n))
  = fst loaded /\
  (forall p, (1 <= p <= n)%nat ->
     getCurrentPageData (fst loaded) (js_lit (Z.of_nat p)) <> [] /\
     (List.length (getCurrentPageData (fst loaded) (js_lit (Z.of_nat p))) <= 10)%nat) /\
  (forall p, (n < p)%nat ->
     getCurrentPageData (fst loaded) (js_lit (Z.of_nat p)) = []) /\
  pagination_shown (fst loaded) (snd loaded)
  = (10 <? List.length (fst loaded))%nat.
Proof.
  intros loaded n.
  assert (Hsnd : snd loaded = Math_ceil (array_length (fst loaded) / js_lit 10))
    by reflexivity.
  rewrite Hsnd. apply pages_of_data.
Qed.

(** X16.  The buttons of the pagination bar keep the page in range: with
    the current page from 1 to [totalPages], a click on any button that is
    rendered and enabled (Previous, a page number, Next) sets a page from 1
    to [totalPages]. *)
Theorem pagination_clicks_in_range (currentPage totalPages : nat) (b : PageButton) :
  (1 <= currentPage <= totalPages)%nat ->
  @button_enabled xnum _ (js_lit (Z.of_nat currentPage))
                  (js_lit (Z.of_nat totalPages)) b = true ->
  exists page : nat,
    @click xnum _ (js_lit (Z.of_nat currentPage)) b = js_lit (Z.of_nat page) /\
    (1 <= page <= totalPages)%nat.
Proof.
  intros Hrange Henabled. destruct b as [ | i | ]; cbn [button_enabled click] in *.
  - exists (currentPage - 1)%nat. revert Henabled. xsimpl.
    rewrite Qeq_bool_inject.
    destruct (Z.eqb_spec (Z.of_nat currentPage) 1); [discriminate | ].
    intros _. split; [ | lia].
    unfold Qminus. rewrite <- inject_Z_opp, <- inject_Z_plus. do 2 f_equal. lia.
  - exists (S i). revert Henabled. xsimpl. rewrite Qfloor_Z, Qltb_inject.
    destruct (Z.ltb_spec (Z.of_nat i) (Z.of_nat totalPages)); [ | discriminate].
    intros _. split; [ | lia].
    rewrite <- inject_Z_plus. do 2 f_equal. lia.
  - exists (S currentPage). revert Henabled. xsimpl.
    rewrite Qeq_bool_inject.
    destruct (Z.eqb_spec (Z.of_nat currentPage) (Z.of_nat totalPages));
      [discriminate | ].
    intros _. split; [ | lia].
    rewrite <- inject_Z_plus. do 2 f_equal. lia.
Qed.

Lemma pagination_clicks_in_range_witness :
  ((1 <= 2 <= 3)%nat /\
   @button_enabled xnum _ (js_lit (Z.of_nat 2)) (js_lit (Z.of_nat 3)) NextPage
   = true) /\
  exists page : nat,
    @click xnum _ (js_lit (Z.of_nat 2)) NextPage = js_lit (Z.of_nat page) /\
    (1 <= page <= 3)%nat.
Proof.
  split; [split; [lia | reflexivity] | ].
  apply pagination_clicks_in_range; [lia | reflexivity].
Defined.

End PagesFacts.

Section NameSearch.

Context {number : Type} `{JSNumber number}.
Local Open Scope string_scope.

Lemma prefix_refl (s : string) : String.prefix s s = true.
Proof.
  induction s as [ | c s IH]; [reflexivity | ].
  cbn [String.prefix]. destruct (ascii_dec c c); [exact IH | contradiction].
Qed.

Lemma includes_self (s : string) : includes s s = true.
Proof. destruct s; cbn [includes]; now rewrite prefix_refl. Qed.

Lemma ascii_toLowerCase_idem (c : ascii) :
  ascii_toLowerCase (ascii_toLowerCase c) = ascii_toLowerCase c.
Proof.
  destruct c as [[] [] [] [] [] [] [] []]; vm_compute; reflexivity.
Qed.

Lemma toLowerCase_idem (s : string) : toLowerCase (toLowerCase s) = toLowerCase s.
Proof.
  induction s as [ | c s IH]; [reflexivity | ].
  cbn [toLowerCase]. now rewrite ascii_toLowerCase_idem, IH.
Qed.

Lemma toLowerCase_nonempty (s : string) : nonempty (toLowerCase s) = nonempty s.
Proof. now destruct s. Qed.

(** X22.  The name search ignores the letter case of the query: the query
    and its lower-case form load the same leaderboard, on every tab; and a
    query that is the name of an entry, in any letter case, matches that
    entry. *)
Theorem search_ignores_case
    (mock : list (LeaderboardEntry (number := number))) (random : number)
    (player : option (@Player number)) (leaderboardType : LeaderboardType)
    (region searchQuery : string) :
  loadLeaderboardData mock random player leaderboardType region
                      (toLowerCase searchQuery)
  = loadLeaderboardData mock random player leaderboardType region searchQuery /\
  (forall e : LeaderboardEntry (number := number),
      toLowerCase searchQuery = toLowerCase (playerName e) ->
      name_matches searchQuery e = true).
Proof.
  split.
  - unfold loadLeaderboardData, filter_and_sort.
    rewrite toLowerCase_nonempty.
    set (entries := match player with
                    | Some p =>
                        if is_global leaderboardType
                        then (mock ++ [currentPlayerEntry random p])%list
                        else mock
                    | None => mock
                    end).
    set (regional_entries :=
           if negb (String.eqb region "all") && is_global leaderboardType
           then filter (region_is region) entries else entries).
    rewrite (filter_ext (name_matches (toLowerCase searchQuery))
                        (name_matches searchQuery)); [reflexivity | ].
    intros e. unfold name_matches. now rewrite toLowerCase_idem.
  - intros e Heq. unfold name_matches. rewrite Heq. apply includes_self.
Qed.

End NameSearch.

Section Friends.

Local Open Scope string_scope.
Local Open Scope js_scope.

(** X19.  A player whose XP is 0 is listed with 30000 XP among the friends.
    When a reward brings the XP exactly to the threshold,
    [updatePlayerProgress] levels the player up with 0 XP left, and the
    friends leaderboard then shows 30000 XP for the player, the fallback of
    [player?.xp || 30000]. *)
Theorem friends_leaderboard_zero_xp
    (Challenge : Type) (st : GameState Challenge) (p : Player) (xpEarned : xnum) :
  player st = Some p ->
  xp p + xpEarned =j= xpToNextLevel p ->
  exists p' : Player,
    player (updatePlayerProgress st xpEarned) = Some p' /\
    truthy (xp p') = false /\
    forall (mock : list LeaderboardEntry) (random : xnum)
           (region searchQuery : string),
      map (@entry_xp _)
          (fst (loadLeaderboardData mock random (Some p') friends region
                                    searchQuery))
      = [js_lit 42000; js_lit 38500; js_lit 35200; js_lit 30000; js_lit 28500].
Proof.
  intros Hp Heq. unfold updatePlayerProgress. rewrite Hp.
  destruct (xp p + xpEarned) as [a | | |] eqn:Ha,
           (xpToNextLevel p) as [b | | |] eqn:Hb; try discriminate Heq.
  - replace (Fin b <=? Fin a) with true
      by (symmetry; revert Heq; xauto).
    eexists. split; [reflexivity | ].
    assert (Hfalsy : @truthy xnum _ (Fin a - Fin b) = false).
    { unfold truthy. revert Heq. xauto. }
    split; [exact Hfalsy | ].
    intros mock random region searchQuery.
    unfold loadLeaderboardData, friendsLeaderboard, entry.
    cbn [fst map entry_xp option_map number_or player_level xp setPlayer player].
    now rewrite Hfalsy.
  - eexists. split; [reflexivity | ]. split; [reflexivity | ].
    intros. reflexivity.
  - eexists. split; [reflexivity | ]. split; [reflexivity | ].
    intros. reflexivity.
Qed.

Lemma friends_leaderboard_zero_xp_witness :
  (player (state_of (player_at (Fin 5) (Fin 450) (Fin 550)))
   = Some (player_at (Fin 5) (Fin 450) (Fin 550)) /\
   xp (player_at (Fin 5) (Fin 450) (Fin 550)) + Fin 100
   =j= xpToNextLevel (player_at (Fin 5) (Fin 450) (Fin 550))) /\
  exists p' : Player,
    player (updatePlayerProgress
              (state_of (player_at (Fin 5) (Fin 450) (Fin 550))) (Fin 100))
    = Some p' /\
    truthy (xp p') = false /\
    forall (mock : list LeaderboardEntry) (random : xnum)
           (region searchQuery : string),
      map (@entry_xp _)
          (fst (loadLeaderboardData mock random (Some p') friends region
                                    searchQuery))
      = [js_lit 42000; js_lit 38500; js_lit 35200; js_lit 30000; js_lit 28500].
Proof.
  split; [split; reflexivity | ].
  apply (@friends_leaderboard_zero_xp unit
           (state_of (player_at (Fin 5) (Fin 450) (Fin 550)))
           (player_at (Fin 5) (Fin 450) (Fin 550)) (Fin 100));
    reflexivity.
Defined.

End Friends.

(* ================================================================= *)
(** ** Requests to the API: the URL *)

(** X21.  The URL that [fetchWithAuth] requests is the base URL followed by
    the endpoint with a leading slash: an endpoint is requested at the same
    URL with and without its leading slash, and normalizing twice changes
    nothing. *)
Theorem request_url_normalized (endpoint : string) :
  String.prefix "/" (normalizedEndpoint endpoint) = true /\
  normalizedEndpoint (normalizedEndpoint endpoint) = normalizedEndpoint endpoint /\
  request_url ("/" ++ endpoint)%string = (API_BASE_URL ++ "/" ++ endpoint)%string /\
  (String.prefix "/" endpoint = false ->
   request_url endpoint = request_url ("/" ++ endpoint)%string).
Proof.
  assert (Hslash : forall s, String.prefix "/" ("/" ++ s)%string = true)
    by (intros s; destruct s; reflexivity).
  unfold request_url, normalizedEndpoint.
  destruct (String.prefix "/" endpoint) eqn:Hp; rewrite ?Hp, ?Hslash.
  - repeat split. discriminate.
  - repeat split.
Qed.

(* ================================================================= *)
(** ** binary64: the further functions on sample inputs *)

Example getPlayerTitle_binary64_samples :
  map getPlayerTitle
      [0; 1; 4.9; 5; 9; 10; 49.5; 50; 1000; nan; infinity; neg_infinity]%float
  = [ "SQL Novice"; "SQL Novice"; "SQL Novice"; "Junior DBA"; "Junior DBA";
      "SQL Developer"; "Database Wizard"; "SQL Legend"; "SQL Legend";
      "SQL Novice"; "SQL Legend"; "SQL Novice" ]%string.
Proof. vm_compute. reflexivity. Qed.

Example getPerformanceRating_binary64_samples :
  map (fun t => getPerformanceRating t true 5000%float)
      [0; 0.05; 0.1; 0.3; 0.5; 1.9; 2; infinity; nan]%float
  = [ "Excellent"; "Excellent"; "Good"; "Good"; "Fair"; "Fair"; "Poor"; "Poor";
      "Poor" ]%string /\
  map (fun t => getPerformanceRating t false 5000%float) [0; 0.05]%float
  = [ "Poor"; "Poor" ]%string.
Proof. split; vm_compute; reflexivity. Qed.

(** The 20 mock entries and the player, drawn at rank 71: three pages, of
    10, 10 and 1 entries; page 1.5 is the slice from 5 to 15. *)
Example getCurrentPageData_binary64_samples :
  snd (loadLeaderboardData mockLeaderboard 0.5%float (Some mockPlayer) global
                           "all" "") = 3%float /\
  map (fun p =>
         map (@rank _)
             (getCurrentPageData
                (fst (loadLeaderboardData mockLeaderboard 0.5%float
                                          (Some mockPlayer) global "all" ""))
                p))
      [1; 2; 3; 4; 0; 1.5; nan]%float
  = [ [1; 2; 3; 4; 5; 6; 7; 8; 9; 10];
      [11; 12; 13; 14; 15; 16; 17; 18; 19; 20];
      [71]; []; [];
      [6; 7; 8; 9; 10; 11; 12; 13; 14; 15];
      [] ]%float.
Proof. split; vm_compute; reflexivity. Qed.

Example hint_requests_binary64_samples :
  map (fun n => hint_requests n (Some ["a"; "b"; "c"]%string) 0%float)
      [0; 1; 2; 3; 4; 7]%nat
  = [0; 1; 2; 3; 3; 3]%float.
Proof. vm_compute. reflexivity. Qed.

Example executeQuery_binary64_sample :
  executionTime (executeQuery (constant_draws 0.5%float) "Select 1" "db1")
  = 0.7%float /\
  rowCount (executeQuery (constant_draws 0.5%float) "Select 1" "db1")
  = 51%float /\
  map (@row_value _) (data (executeQuery (constant_draws 0.5%float) "Select 1" "db1"))
  = [500; 500; 500; 500; 500; 500; 500; 500; 500; 500]%float /\
  error (executeQuery (constant_draws 0.5%float) "DROP TABLE users" "db1")
  = Some "Syntax error: Query must include a SELECT statement"%string.
Proof. repeat split; vm_compute; reflexivity. Qed.

Example calculateOverallProgress_binary64_sample :
  calculateOverallProgress
    [cluster_of (Challenge := unit) 40%float []; cluster_of 75%float []]
  = 58%float.
Proof. vm_compute. reflexivity. Qed.
